(** * Verification of the repository preprocessing and semantic-indexing pipeline

    A shallow embedding of the Python services under
    [backend/app/services] (semantic_search.py, code_chunker.py,
    file_processor.py, repo_analyser.py, progress_tracker.py) and the
    properties of the specification settled against it.

    Conventions of the embedding:
    - Python [int] is [Z]; Python [float] is modelled by exact rationals [Q]
      (no rounding), which is enough for the order and sign facts proved here;
    - Python [str] is [string], one [ascii] per character;
    - a Python exception is a value [Raise e] of the error monad [result];
    - objects mutated in place ([self.index], the progress row) are records
      threaded explicitly; a database commit stores the record as it is and
      is not modelled;
    - a method keeps its name and its [self]; the libraries the services call
      ([faiss], [re], [hashlib], [pathlib], [ast]) are modelled as far as the
      services use them, the parser of [ast] being a parameter. *)

From Stdlib Require Import ZArith QArith Qabs Lqa List Sorted Bool Lia.
From Stdlib Require Import Ascii String DecimalString.
From stdpp Require Import base option list strings gmap.

Local Open Scope string_scope.
Local Open Scope list_scope.
Local Open Scope Z_scope.

(** ** Python exceptions and the error monad *)

Inductive exn : Type :=
| IndexError
| ValueError
| AssertionError
| AttributeError
| RuntimeError
| FileNotFoundError
| FileExistsError
| UnpicklingError
| SyntaxError
| OtherError (msg : string).

Inductive result (A : Type) : Type :=
| Ok (a : A)
| Raise (e : exn).
Arguments Ok {A} a.
Arguments Raise {A} e.

#[export] Instance result_ret : MRet result := fun _ a => Ok a.
#[export] Instance result_bind : MBind result := fun _ _ f m =>
  match m with
  | Ok a => f a
  | Raise e => Raise e
  end.

(** ** Python built-ins used by the services *)

Module Py.

(** [len(l)] as a Python integer. *)
Definition len {A} (l : list A) : Z := Z.of_nat (List.length l).

(** [l[i]]: a negative index counts from the end, an index outside
    [-len(l) .. len(l)-1] raises [IndexError]. *)
Definition getitem {A} (l : list A) (i : Z) : result A :=
  let j := if i <? 0 then len l + i else i in
  if j <? 0 then Raise IndexError
  else match nth_error l (Z.to_nat j) with
       | Some a => Ok a
       | None => Raise IndexError
       end.

(** A slice bound: negative counts from the end, then clamped to
    [0 .. len(l)]. *)
Definition clamp {A} (l : list A) (i : Z) : nat :=
  Z.to_nat (Z.min (len l) (Z.max 0 (if i <? 0 then len l + i else i))).

(** [l[lo:hi]]. *)
Definition slice {A} (l : list A) (lo hi : Z) : list A :=
  firstn (clamp l hi - clamp l lo) (skipn (clamp l lo) l).

(** [l.index(x)]: position of the first occurrence. *)
Fixpoint index (l : list string) (x : string) : result Z :=
  match l with
  | [] => Raise ValueError
  | y :: l' => if String.eqb y x then Ok 0
               else i ← index l' x; Ok (i + 1)
  end.

(** [x in l]. *)
Definition contains (l : list string) (x : string) : bool :=
  existsb (String.eqb x) l.

(** [enumerate(l)] starting at [i]. *)
Fixpoint enumerate_from {A} (i : Z) (l : list A) : list (Z * A) :=
  match l with
  | [] => []
  | a :: l' => (i, a) :: enumerate_from (i + 1) l'
  end.

End Py.

(** ** The flat L2 index of the [faiss] library

    [faiss.IndexFlatL2(d)] stores the added vectors in order and answers
    [search(x, k)] with the [k] smallest squared Euclidean distances in
    ascending order.  A stored vector becomes a candidate only when its
    distance is below the initial heap threshold [FLT_MAX]; when fewer than
    [k] candidates exist the missing entries carry label [-1] and distance
    [FLT_MAX].  The order of the library among equal distances is not
    documented; here the smaller label comes first, and no property below
    depends on that choice. *)

Definition vec : Type := list Q.

Module faiss.

Definition FLT_MAX : Q := 340282346638528859811704183484516925440%Q.

Record IndexFlatL2 : Type := mkIndex {
  d : nat;
  xb : list vec
}.

Definition new (dim : nat) : IndexFlatL2 := mkIndex dim [].

Definition ntotal (ix : IndexFlatL2) : nat := List.length (xb ix).

(** [index.add(x)]: every row must have [d] components. *)
Definition add (ix : IndexFlatL2) (xs : list vec) : result IndexFlatL2 :=
  if forallb (fun x => Nat.eqb (List.length x) (d ix)) xs
  then Ok (mkIndex (d ix) (xb ix ++ xs))
  else Raise AssertionError.

Fixpoint fvec_L2sqr (x y : vec) : Q :=
  match x, y with
  | a :: x', b :: y' => ((a - b) * (a - b) + fvec_L2sqr x' y')%Q
  | _, _ => 0%Q
  end.

(** One entry of a result row: (distance, label). *)
Definition hit : Type := (Q * Z)%type.

Fixpoint insert (h : hit) (l : list hit) : list hit :=
  match l with
  | [] => [h]
  | h' :: l' => if Qle_bool (fst h) (fst h') then h :: h' :: l'
                else h' :: insert h l'
  end.

Definition sort (l : list hit) : list hit := fold_right insert [] l.

Definition candidates (ix : IndexFlatL2) (x : vec) : list hit :=
  List.filter (fun h : hit => negb (Qle_bool FLT_MAX (fst h)))
    (map (fun p : Z * vec => (fvec_L2sqr x (snd p), fst p))
         (Py.enumerate_from 0 (xb ix))).

(** [index.search(x, k)] for a single query row [x]. *)
Definition search (ix : IndexFlatL2) (x : vec) (k : Z) : result (list hit) :=
  if negb (Nat.eqb (List.length x) (d ix)) then Raise AssertionError
  else if k <=? 0 then Raise AssertionError
  else
    let best := firstn (Z.to_nat k) (sort (candidates ix x)) in
    Ok (best ++ repeat (FLT_MAX, -1) (Z.to_nat k - List.length best)).

(** [index.reconstruct(i)]. *)
Definition reconstruct (ix : IndexFlatL2) (i : Z) : result vec :=
  if i <? 0 then Raise RuntimeError
  else match nth_error (xb ix) (Z.to_nat i) with
       | Some v => Ok v
       | None => Raise RuntimeError
       end.

End faiss.

(** ** The file system seen by [save_index] and [load_index]

    Directories are a set of paths, regular files a map from path to content.
    A file holds what was written to it: a serialized flat index
    ([faiss.write_index]), a pickled list of strings, or other bytes.
    [pathlib]'s normalisation of paths is not modelled: both operations build
    their paths with the same [joinpath]. *)

Module FS.

Inductive content : Type :=
| FaissIndex (ix : faiss.IndexFlatL2)
| PickledIds (ids : list string)
| Bytes (s : string).

Record t : Type := mkFS {
  dirs : gset string;
  files : gmap string content
}.

(** [Path(a) / b]. *)
Definition joinpath (a b : string) : string :=
  match b with
  | String "/" _ => b
  | _ => a +:+ "/" +:+ b
  end.

(** [path.exists()]. *)
Definition exists_ (fs : t) (p : string) : bool :=
  bool_decide (p ∈ dirs fs) || bool_decide (is_Some (files fs !! p)).

(** [path.mkdir(parents=True, exist_ok=True)]. *)
Definition mkdir (fs : t) (p : string) : result t :=
  if bool_decide (is_Some (files fs !! p)) then Raise FileExistsError
  else Ok (mkFS ({[ p ]} ∪ dirs fs) (files fs)).

(** Opening [p] for writing and storing [c]; a directory cannot be opened. *)
Definition write (fs : t) (p : string) (c : content) : result t :=
  if bool_decide (p ∈ dirs fs) then Raise (OtherError "IsADirectoryError")
  else Ok (mkFS (dirs fs) (<[ p := c ]> (files fs))).

(** [open(p, 'r', encoding='utf-8').read()]. *)
Definition read_text (fs : t) (p : string) : result string :=
  match files fs !! p with
  | Some (Bytes s) => Ok s
  | Some _ => Raise (OtherError "UnicodeDecodeError")
  | None =>
      if bool_decide (p ∈ dirs fs) then Raise (OtherError "IsADirectoryError")
      else Raise FileNotFoundError
  end.

(** [faiss.read_index(p)]. *)
Definition read_index (fs : t) (p : string) : result faiss.IndexFlatL2 :=
  match files fs !! p with
  | Some (FaissIndex ix) => Ok ix
  | _ => Raise RuntimeError
  end.

(** [pickle.load(open(p, 'rb'))]; the services only store lists of ids. *)
Definition read_pickle (fs : t) (p : string) : result (list string) :=
  match files fs !! p with
  | Some (PickledIds ids) => Ok ids
  | Some _ => Raise UnpicklingError
  | None => Raise FileNotFoundError
  end.

End FS.

(** ** semantic_search.py *)

Module SemanticSearch.

(** The chunk dictionaries handed to the indexer. *)
Record chunk : Type := mkChunk {
  id : string;
  name : string;
  signature : string;
  docstring : string;
  keywords : list string;
  code : string
}.

(** [self.model] is the sentence encoder: one vector per text. *)
Record t : Type := mkSearch {
  model : string -> vec;
  dimension : nat;
  index : option faiss.IndexFlatL2;
  chunk_ids : list string
}.

Record hit : Type := mkHit {
  chunk_id : string;
  similarity_score : Q;
  rank : Z
}.

(** [__init__]: dimension 384, no index, no chunk ids. *)
Definition init (m : string -> vec) : t := mkSearch m 384 None [].

Definition join_space (parts : list string) : string :=
  String.concat " " parts.

Definition nonempty (s : string) : bool := negb (String.eqb s "").

(** [create_embeddings]: name, signature, docstring, keywords and the first
    500 characters of the code, empty parts dropped, joined by spaces. *)
Definition chunk_text (c : chunk) : string :=
  join_space (List.filter nonempty
    [name c; signature c; docstring c; join_space (keywords c);
     String.substring 0 500 (code c)]).

Definition create_embeddings (s : t) (chunks : list chunk) : list vec :=
  map (fun c => model s (chunk_text c)) chunks.

(** [build_index]: a new flat index holding [embeddings], and the ids of
    [chunks] in the same order. *)
Definition build_index (s : t) (chunks : list chunk) (embeddings : list vec)
  : result t :=
  ix ← faiss.add (faiss.new (dimension s)) embeddings;
  Ok (mkSearch (model s) (dimension s) (Some ix) (map id chunks)).

(** The loop of [search] over [enumerate(zip(distances[0], indices[0]))]. *)
Fixpoint collect (ids : list string) (rows : list (Z * faiss.hit))
  : result (list hit) :=
  match rows with
  | [] => Ok []
  | (i, (distance, idx)) :: rest =>
      if idx <? Py.len ids then
        cid ← Py.getitem ids idx;
        rs ← collect ids rest;
        Ok (mkHit cid (1 / (1 + distance))%Q (i + 1) :: rs)
      else collect ids rest
  end.

Definition search (s : t) (query : string) (top_k : Z) : result (list hit) :=
  match index s with
  | None => Ok []
  | Some ix =>
      let query_embedding := model s query in
      row ← faiss.search ix query_embedding top_k;
      collect (chunk_ids s) (Py.enumerate_from 0 row)
  end.

(** The comprehension of [get_similar_chunks] over [indices[0][1:]]. *)
Fixpoint pick (ids : list string) (labels : list Z) : result (list string) :=
  match labels with
  | [] => Ok []
  | i :: rest =>
      if i <? Py.len ids then
        cid ← Py.getitem ids i;
        rs ← pick ids rest;
        Ok (cid :: rs)
      else pick ids rest
  end.

Definition get_similar_chunks (s : t) (cid : string) (top_k : Z)
  : result (list string) :=
  if negb (Py.contains (chunk_ids s) cid) then Ok []
  else
    idx ← Py.index (chunk_ids s) cid;
    match index s with
    | None => Raise AttributeError
    | Some ix =>
        embedding ← faiss.reconstruct ix idx;
        row ← faiss.search ix embedding (top_k + 1);
        pick (chunk_ids s) (map snd (tail row))
    end.

(** [save_index]: [faiss.write_index(None, ...)] raises when nothing was
    built. *)
Definition save_index (s : t) (project_id save_dir : string) (fs : FS.t)
  : result FS.t :=
  let save_path := FS.joinpath save_dir project_id in
  fs1 ← FS.mkdir fs save_path;
  match index s with
  | None => Raise AttributeError
  | Some ix =>
      fs2 ← FS.write fs1 (FS.joinpath save_path "faiss.index")
               (FS.FaissIndex ix);
      FS.write fs2 (FS.joinpath save_path "chunk_ids.pkl")
               (FS.PickledIds (chunk_ids s))
  end.

Definition load_index (s : t) (project_id load_dir : string) (fs : FS.t)
  : result t :=
  let load_path := FS.joinpath load_dir project_id in
  if negb (FS.exists_ fs load_path) then Raise FileNotFoundError
  else
    ix ← FS.read_index fs (FS.joinpath load_path "faiss.index");
    ids ← FS.read_pickle fs (FS.joinpath load_path "chunk_ids.pkl");
    Ok (mkSearch (model s) (dimension s) (Some ix) ids).

End SemanticSearch.

(** ** Python strings

    A character is a code point below 256.  Line feed is ["010"%char]. *)

Module PyStr.

Definition LF : ascii := "010"%char.

(** The string ["\n"]. *)
Definition NL : string := String LF EmptyString.

Definition code (c : ascii) : Z := Z.of_nat (nat_of_ascii c).

(** [str.isspace] on one character, which is also the class [\s] of [re]. *)
Definition is_space (c : ascii) : bool :=
  let n := code c in
  ((9 <=? n) && (n <=? 13)) || ((28 <=? n) && (n <=? 32))
  || (n =? 133) || (n =? 160).

(** The class [\w] of [re] on text patterns: alphanumeric or underscore. *)
Definition is_word (c : ascii) : bool :=
  let n := code c in
  ((48 <=? n) && (n <=? 57)) || ((65 <=? n) && (n <=? 90))
  || ((97 <=? n) && (n <=? 122)) || (n =? 95)
  || (n =? 170) || (n =? 178) || (n =? 179) || (n =? 181) || (n =? 185)
  || (n =? 186) || ((188 <=? n) && (n <=? 190))
  || ((192 <=? n) && (n <=? 214)) || ((216 <=? n) && (n <=? 246))
  || (248 <=? n).

Definition len (s : string) : Z := Z.of_nat (String.length s).

(** [s.startswith(p)]. *)
Fixpoint startswith (p s : string) : bool :=
  match p, s with
  | EmptyString, _ => true
  | String a p', String b s' => Ascii.eqb a b && startswith p' s'
  | String _ _, EmptyString => false
  end.

(** [sub in s]. *)
Fixpoint contains (sub s : string) : bool :=
  startswith sub s ||
  match s with
  | EmptyString => false
  | String _ s' => contains sub s'
  end.

(** [s.count(sub)] for a non-empty [sub]: occurrences counted from the left
    without overlap; [skip] characters of the last occurrence remain. *)
Fixpoint count_from (sub : string) (skip : nat) (s : string) : Z :=
  match s with
  | EmptyString => 0
  | String _ s' =>
      match skip with
      | S n => count_from sub n s'
      | O => if startswith sub s
             then 1 + count_from sub (String.length sub - 1) s'
             else count_from sub 0 s'
      end
  end.

Definition count (s sub : string) : Z := count_from sub 0 s.

(** [s.split('\n')]: at least one piece. *)
Fixpoint split_lines (s : string) : list string :=
  match s with
  | EmptyString => [EmptyString]
  | String c s' =>
      if Ascii.eqb c LF then EmptyString :: split_lines s'
      else match split_lines s' with
           | l :: ls => String c l :: ls
           | [] => [String c EmptyString]
           end
  end.

(** ['\n'.join(ls)]. *)
Definition join_lines (ls : list string) : string :=
  String.concat NL ls.

Fixpoint lstrip (s : string) : string :=
  match s with
  | String c s' => if is_space c then lstrip s' else s
  | EmptyString => EmptyString
  end.

Fixpoint rstrip (s : string) : string :=
  match s with
  | EmptyString => EmptyString
  | String c s' =>
      match rstrip s' with
      | EmptyString => if is_space c then EmptyString else String c EmptyString
      | r => String c r
      end
  end.

(** [s.strip()]. *)
Definition strip (s : string) : string := rstrip (lstrip s).

(** [len(s.split())]: the number of maximal runs of non-space characters;
    [inword] tells whether the previous character belonged to a run. *)
Fixpoint count_words (inword : bool) (s : string) : Z :=
  match s with
  | EmptyString => 0
  | String c s' =>
      if is_space c then count_words false s'
      else (if inword then 0 else 1) + count_words true s'
  end.

(** [s[:n]]. *)
Definition prefix (n : nat) (s : string) : string := String.substring 0 n s.

(** [str(z)] for an integer. *)
Definition of_int (z : Z) : string :=
  DecimalString.NilZero.string_of_int (Z.to_int z).

(** [s.encode()]: UTF-8, one or two bytes for a code point below 256. *)
Fixpoint encode (s : string) : list Z :=
  match s with
  | EmptyString => []
  | String c s' =>
      let n := code c in
      if n <? 128 then n :: encode s'
      else Z.lor 192 (Z.shiftr n 6) :: Z.lor 128 (Z.land n 63) :: encode s'
  end.

End PyStr.

(** ** The regular expressions of the chunker

    A backtracking matcher with the priorities of Python's [re]: the left
    alternative first, a greedy repetition longest first, a lazy one shortest
    first.  The patterns of the services use neither anchors nor
    back-references, and every repeated sub-pattern consumes a character. *)

Module Re.

Inductive regex : Type :=
| Eps
| Class (p : ascii -> bool)
| Seq (r1 r2 : regex)
| Alt (r1 r2 : regex)
| Star (greedy : bool) (r : regex)
| Group (n : nat) (r : regex).

(** Captured groups, the most recent capture of a group first. *)
Definition captures : Type := list (nat * string).

Definition consumed (s s' : string) : string :=
  PyStr.prefix (String.length s - String.length s') s.

Fixpoint run {R : Type} (r : regex) (s : string) (g : captures)
    (k : string -> captures -> option R) : option R :=
  match r with
  | Eps => k s g
  | Class p =>
      match s with
      | String c s' => if p c then k s' g else None
      | EmptyString => None
      end
  | Seq r1 r2 => run r1 s g (fun s' g' => run r2 s' g' k)
  | Alt r1 r2 =>
      match run r1 s g k with
      | Some x => Some x
      | None => run r2 s g k
      end
  | Star greedy r' =>
      (fix loop (fuel : nat) (s : string) (g : captures) : option R :=
         match fuel with
         | O => k s g
         | S fuel' =>
             let again (_ : unit) :=
               run r' s g (fun s' g' =>
                 if (String.length s' <? String.length s)%nat
                 then loop fuel' s' g' else None) in
             if greedy then
               match again tt with
               | Some x => Some x
               | None => k s g
               end
             else
               match k s g with
               | Some x => Some x
               | None => again tt
               end
         end) (String.length s) s g
  | Group n r' => run r' s g (fun s' g' => k s' ((n, consumed s s') :: g'))
  end.

(** A match object: [m.start()], [m.end()] and the groups. *)
Record match_ : Type := mkMatch {
  m_start : Z;
  m_end : Z;
  m_groups : captures
}.

(** [m.group(n)], [None] when the group did not take part in the match. *)
Fixpoint group (g : captures) (n : nat) : option string :=
  match g with
  | [] => None
  | (i, s) :: g' => if Nat.eqb i n then Some s else group g' n
  end.

(** The match starting exactly at the head of [s]. *)
Definition match_here (r : regex) (s : string) : option (string * captures) :=
  run r s [] (fun s' g => Some (s', g)).

(** [pattern.finditer(content)], [pos] being the offset of [s] in the
    content and [skip] the characters still covered by the last match. *)
Fixpoint finditer_from (r : regex) (pos : Z) (skip : nat) (s : string)
  : list match_ :=
  match s with
  | EmptyString =>
      match skip, match_here r s with
      | O, Some (_, g) => [mkMatch pos pos g]
      | _, _ => []
      end
  | String _ s1 =>
      match skip with
      | S n => finditer_from r (pos + 1) n s1
      | O =>
          match match_here r s with
          | Some (s', g) =>
              let n := (String.length s - String.length s')%nat in
              mkMatch pos (pos + Z.of_nat n) g
                :: finditer_from r (pos + 1) (n - 1) s1
          | None => finditer_from r (pos + 1) 0 s1
          end
      end
  end.

Definition finditer (r : regex) (content : string) : list match_ :=
  finditer_from r 0 0 content.

(** [re.split(pattern, content)] for a pattern without groups whose matches
    are not empty; [acc] holds the current piece in reverse. *)
Fixpoint split_from (r : regex) (skip : nat) (acc : list ascii) (s : string)
  : list string :=
  match s with
  | EmptyString => [string_of_list_ascii (rev acc)]
  | String c s1 =>
      match skip with
      | S n => split_from r n acc s1
      | O =>
          match match_here r s with
          | Some (s', _) =>
              match (String.length s - String.length s')%nat with
              | O => split_from r 0 (c :: acc) s1
              | S n => string_of_list_ascii (rev acc) :: split_from r n [] s1
              end
          | None => split_from r 0 (c :: acc) s1
          end
      end
  end.

Definition split (r : regex) (content : string) : list string :=
  split_from r 0 [] content.

(** *** Building patterns *)

Definition chr (c : ascii) : regex := Class (Ascii.eqb c).

Fixpoint lit (s : string) : regex :=
  match s with
  | EmptyString => Eps
  | String c EmptyString => chr c
  | String c s' => Seq (chr c) (lit s')
  end.

Definition plus (r : regex) : regex := Seq r (Star true r).
Definition opt (r : regex) : regex := Alt r Eps.
Definition space : regex := Class PyStr.is_space.
Definition word : regex := Class PyStr.is_word.
Definition dot : regex := Class (fun c => negb (Ascii.eqb c PyStr.LF)).

Fixpoint seq (rs : list regex) : regex :=
  match rs with
  | [] => Eps
  | [r] => r
  | r :: rs' => Seq r (seq rs')
  end.

End Re.

(** ** MD5 (RFC 1321), as [hashlib.md5(data).hexdigest()]

    Bytes are integers in [0, 256), words integers in [0, 2^32). *)

Module MD5.

Definition w32 (x : Z) : Z := Z.land x 4294967295.

Definition rotl (x c : Z) : Z :=
  w32 (Z.lor (Z.shiftl x c) (Z.shiftr x (32 - c))).

Definition lnot32 (x : Z) : Z := Z.lxor x 4294967295.

Definition S_table : list Z :=
  [7; 12; 17; 22; 7; 12; 17; 22; 7; 12; 17; 22; 7; 12; 17; 22;
   5; 9; 14; 20; 5; 9; 14; 20; 5; 9; 14; 20; 5; 9; 14; 20;
   4; 11; 16; 23; 4; 11; 16; 23; 4; 11; 16; 23; 4; 11; 16; 23;
   6; 10; 15; 21; 6; 10; 15; 21; 6; 10; 15; 21; 6; 10; 15; 21].

Definition K_table : list Z :=
  [3614090360; 3905402710; 606105819; 3250441966;
   4118548399; 1200080426; 2821735955; 4249261313;
   1770035416; 2336552879; 4294925233; 2304563134;
   1804603682; 4254626195; 2792965006; 1236535329;
   4129170786; 3225465664; 643717713; 3921069994;
   3593408605; 38016083; 3634488961; 3889429448;
   568446438; 3275163606; 4107603335; 1163531501;
   2850285829; 4243563512; 1735328473; 2368359562;
   4294588738; 2272392833; 1839030562; 4259657740;
   2763975236; 1272893353; 4139469664; 3200236656;
   681279174; 3936430074; 3572445317; 76029189;
   3654602809; 3873151461; 530742520; 3299628645;
   4096336452; 1126891415; 2878612391; 4237533241;
   1700485571; 2399980690; 4293915773; 2240044497;
   1873313359; 4264355552; 2734768916; 1309151649;
   4149444226; 3174756917; 718787259; 3951481745].

Record state : Type := mkState { sa : Z; sb : Z; sc : Z; sd : Z }.

Definition init : state := mkState 1732584193 4023233417 2562383102 271733878.

(** The message followed by [0x80], zeros up to 56 modulo 64, and the bit
    length on eight bytes, least significant first. *)
Definition le_bytes (n : nat) (x : Z) : list Z :=
  map (fun i => Z.land (Z.shiftr x (8 * Z.of_nat i)) 255) (List.seq 0 n).

Definition pad (msg : list Z) : list Z :=
  let n := Z.of_nat (List.length msg) in
  let zeros := Z.to_nat ((55 - n) mod 64) in
  msg ++ [128] ++ repeat 0 zeros ++ le_bytes 8 (8 * n).

Fixpoint le_word (bs : list Z) : Z :=
  match bs with
  | [] => 0
  | b :: bs' => b + 256 * le_word bs'
  end.

(** The sixteen words of a 64-byte block. *)
Definition words (block : list Z) : list Z :=
  map (fun i => le_word (firstn 4 (skipn (4 * i) block))) (List.seq 0 16).

Definition round (m : list Z) (st : state) (i : nat) : state :=
  let '(mkState a b c d) := st in
  let z := Z.of_nat i in
  let '(f, g) :=
    if (i <? 16)%nat then (Z.lor (Z.land b c) (Z.land (lnot32 b) d), z)
    else if (i <? 32)%nat then
      (Z.lor (Z.land d b) (Z.land (lnot32 d) c), (5 * z + 1) mod 16)
    else if (i <? 48)%nat then (Z.lxor b (Z.lxor c d), (3 * z + 5) mod 16)
    else (Z.lxor c (Z.lor b (lnot32 d)), (7 * z) mod 16) in
  let f' := w32 (f + a + nth i K_table 0 + nth (Z.to_nat g) m 0) in
  mkState d (w32 (b + rotl f' (nth i S_table 0))) b c.

Definition compress (st : state) (block : list Z) : state :=
  let m := words block in
  let st' := fold_left (round m) (List.seq 0 64) st in
  mkState (w32 (sa st + sa st')) (w32 (sb st + sb st'))
          (w32 (sc st + sc st')) (w32 (sd st + sd st')).

Fixpoint blocks (n : nat) (bs : list Z) : list (list Z) :=
  match n with
  | O => []
  | S n' => firstn 64 bs :: blocks n' (skipn 64 bs)
  end.

Definition digest (msg : list Z) : list Z :=
  let p := pad msg in
  let st := fold_left compress (blocks (List.length p / 64) p) init in
  le_bytes 4 (sa st) ++ le_bytes 4 (sb st) ++ le_bytes 4 (sc st)
    ++ le_bytes 4 (sd st).

Definition hex_digit (n : Z) : ascii :=
  nth (Z.to_nat n)
    ["0"; "1"; "2"; "3"; "4"; "5"; "6"; "7";
     "8"; "9"; "a"; "b"; "c"; "d"; "e"; "f"]%char "0"%char.

Fixpoint hex (bs : list Z) : string :=
  match bs with
  | [] => EmptyString
  | b :: bs' =>
      String (hex_digit (Z.shiftr b 4)) (String (hex_digit (Z.land b 15)) (hex bs'))
  end.

Definition hexdigest (msg : list Z) : string := hex (digest msg).

End MD5.

(** ** The syntax trees of Python's [ast] module

    Only what the chunker inspects is kept: the kind of a node, the
    attributes of definitions, and the child nodes in field order.  The list
    field the chunker reads by name ([body] of a definition, [values] of a
    boolean operation) is kept apart from the children before and after it. *)

Module Ast.

Inductive kind : Type :=
| FunctionDef (name : string) (lineno : Z) (end_lineno : option Z)
    (args : list string) (doc : option string)
| ClassDef (name : string) (lineno : Z) (end_lineno : option Z)
    (doc : option string)
| If | For | While | Try | ExceptHandler | With
| BoolOp
| Other.

#[warnings="-register-all"] Inductive node : Type :=
| Node (k : kind) (before body after : list node).

Definition kind_of (n : node) : kind := let '(Node k _ _ _) := n in k.
Definition body (n : node) : list node := let '(Node _ _ b _) := n in b.

(** [ast.iter_child_nodes]. *)
Definition children (n : node) : list node :=
  let '(Node _ a b c) := n in a ++ b ++ c.

Fixpoint size (n : node) : nat :=
  match n with
  | Node _ a b c =>
      S (list_sum (map size a) + list_sum (map size b) + list_sum (map size c))
  end.

(** [ast.walk]: breadth first, with a queue. *)
Fixpoint walk_queue (fuel : nat) (todo : list node) : list node :=
  match fuel, todo with
  | S fuel', n :: rest => n :: walk_queue fuel' (rest ++ children n)
  | _, _ => []
  end.

Definition walk (n : node) : list node := walk_queue (size n) [n].

(** What the parser guarantees: a boolean operation has at least two
    operands. *)
Fixpoint wf (n : node) : bool :=
  match n with
  | Node k a b c =>
      match k with
      | BoolOp => 2 <=? Py.len b
      | _ => true
      end
      && forallb wf a && forallb wf b && forallb wf c
  end.

End Ast.

(** ** code_chunker.py *)

Module CodeChunker.

Inductive chunk_type : Type := Function | Class | Method | Block.

(** The chunk dictionary, with the entries common to the strategies and
    [parent_class].  The entries made from a Python [set] in iteration
    order ([keywords], [calls_functions]) and the ones proper to one
    language ([parameters], [return_type], [base_classes], [methods],
    [is_async], [extends]) are left out: no property below reads them. *)
Record chunk : Type := mkChunk {
  id : string;
  file_path : string;
  kind : chunk_type;
  name : string;
  signature : string;
  start_line : Z;
  end_line : Z;
  code : string;
  docstring : string;
  parent_class : option string;
  complexity : Z;
  token_count : Z
}.

Record t : Type := mkChunker { project_path : string }.

(** *** Chunk ids *)

(** [_generate_chunk_id]: the first sixteen hexadecimal digits of the MD5
    of ["{file_path}:{name}:{line}"]. *)
Definition _generate_chunk_id (self : t) (file_path name : string) (line : Z)
  : string :=
  let unique_str := file_path +:+ ":" +:+ name +:+ ":" +:+ PyStr.of_int line in
  PyStr.prefix 16 (MD5.hexdigest (PyStr.encode unique_str)).

(** *** Complexity of text *)

Definition decision_keywords : list string :=
  ["if"; "else"; "for"; "while"; "switch"; "case";
   "try"; "catch"; "finally"; "&&"; "||"].

Definition sum (l : list Z) : Z := fold_right Z.add 0 l.

(** [_calculate_simple_complexity]. *)
Definition _calculate_simple_complexity (self : t) (code : string) : Z :=
  sum (map (PyStr.count code) decision_keywords) + 1.

(** *** The generic strategy *)

(** [\n\s*\n] *)
Definition blank_pattern : Re.regex :=
  Re.seq [Re.chr PyStr.LF; Re.Star true Re.space; Re.chr PyStr.LF].

(** The loop of [_chunk_generic] over the blocks, [current_line] being the
    line attributed to the next block. *)
Fixpoint generic_blocks (self : t) (file_path : string) (current_line : Z)
    (blocks : list string) : list chunk :=
  match blocks with
  | [] => []
  | block :: rest =>
      if PyStr.len (PyStr.strip block) <? 20 then
        generic_blocks self file_path
          (current_line + (PyStr.count block PyStr.NL + 2)) rest
      else
        let lines_in_block := PyStr.count block PyStr.NL + 1 in
        mkChunk (_generate_chunk_id self file_path "block" current_line)
                file_path Block
                ("block_" +:+ PyStr.of_int current_line)
                ("Code block at line " +:+ PyStr.of_int current_line)
                current_line
                (current_line + lines_in_block - 1)
                block "" None
                (_calculate_simple_complexity self block)
                (PyStr.count_words false block)
          :: generic_blocks self file_path
               (current_line + (lines_in_block + 2)) rest
  end.

(** [_chunk_generic]. *)
Definition _chunk_generic (self : t) (file_path content : string) : list chunk :=
  generic_blocks self file_path 1 (Re.split blank_pattern content).

(** *** The pattern-match strategy *)

(** [(async\s+)?function\s+(\w+)\s*{{{{\((.*?)\)}}}}\s*{] *)
Definition func_pattern : Re.regex :=
  Re.seq [Re.opt (Re.Group 1 (Re.Seq (Re.lit "async") (Re.plus Re.space)));
          Re.lit "function"; Re.plus Re.space;
          Re.Group 2 (Re.plus Re.word); Re.Star true Re.space;
          Re.lit "{{{{("; Re.Group 3 (Re.Star false Re.dot); Re.lit ")}}}}";
          Re.Star true Re.space; Re.lit "{"].

(** [(const|let|var)\s+(\w+)\s*=\s*(?:async\s+)?{{{{\((.*?)\)}}}}\s*=>\s*{] *)
Definition arrow_pattern : Re.regex :=
  Re.seq [Re.Group 1 (Re.Alt (Re.lit "const") (Re.Alt (Re.lit "let") (Re.lit "var")));
          Re.plus Re.space; Re.Group 2 (Re.plus Re.word);
          Re.Star true Re.space; Re.lit "="; Re.Star true Re.space;
          Re.opt (Re.Seq (Re.lit "async") (Re.plus Re.space));
          Re.lit "{{{{("; Re.Group 3 (Re.Star false Re.dot); Re.lit ")}}}}";
          Re.Star true Re.space; Re.lit "=>"; Re.Star true Re.space;
          Re.lit "{"].

(** [class\s+(\w+)(?:\s+extends\s+(\w+))?\s*{] *)
Definition class_pattern : Re.regex :=
  Re.seq [Re.lit "class"; Re.plus Re.space; Re.Group 1 (Re.plus Re.word);
          Re.opt (Re.seq [Re.plus Re.space; Re.lit "extends";
                          Re.plus Re.space; Re.Group 2 (Re.plus Re.word)]);
          Re.Star true Re.space; Re.lit "{"].

(** The inner loop of [_find_closing_brace] over the characters of a line:
    whether the closing brace was met, and the counter and flag after. *)
Fixpoint scan_chars (line : string) (brace_count : Z) (started : bool)
  : bool * Z * bool :=
  match line with
  | EmptyString => (false, brace_count, started)
  | String c line' =>
      if Ascii.eqb c "{" then scan_chars line' (brace_count + 1) true
      else if Ascii.eqb c "}" then
        if started && (brace_count - 1 =? 0) then (true, brace_count - 1, started)
        else scan_chars line' (brace_count - 1) started
      else scan_chars line' brace_count started
  end.

(** The outer loop, [i] being the index of the head of [lines]. *)
Fixpoint scan_lines (lines : list string) (i : Z) (brace_count : Z)
    (started : bool) : option Z :=
  match lines with
  | [] => None
  | line :: rest =>
      match scan_chars line brace_count started with
      | (true, _, _) => Some i
      | (false, brace_count', started') =>
          scan_lines rest (i + 1) brace_count' started'
      end
  end.

(** [_find_closing_brace(lines, start_line)] for [0 <= start_line]: an
    index into [lines] (counted from 0). *)
Definition _find_closing_brace (self : t) (lines : list string) (start_line : Z)
  : Z :=
  match scan_lines (skipn (Z.to_nat start_line) lines) start_line 0 false with
  | Some i => i
  | None => Z.min (start_line + 50) (Py.len lines - 1)
  end.

(** The inner loop of [_extract_jsdoc]: collect upwards until a line that
    starts the comment. *)
Fixpoint jsdoc_collect (above : list string) (doc_lines : list string)
  : list string :=
  match above with
  | [] => doc_lines
  | l :: rest =>
      let line := PyStr.strip l in
      if PyStr.startswith "/**" line then line :: doc_lines
      else jsdoc_collect rest (line :: doc_lines)
  end.

(** The outer loop, over the lines above the unit from the nearest up. *)
Fixpoint jsdoc_scan (above : list string) : list string :=
  match above with
  | [] => []
  | l :: rest =>
      let line := PyStr.strip l in
      if PyStr.startswith "*/" line then jsdoc_collect above []
      else if String.eqb line "" || PyStr.startswith "//" line
      then jsdoc_scan rest
      else []
  end.

(** [_extract_jsdoc(lines, line_num)] for [0 <= line_num]. *)
Definition _extract_jsdoc (self : t) (lines : list string) (line_num : Z)
  : string :=
  PyStr.join_lines (jsdoc_scan (rev (firstn (Z.to_nat line_num) lines))).

Definition group_text (m : Re.match_) (n : nat) : string :=
  default "" (Re.group (Re.m_groups m) n).

(** The part shared by the three extractors: the line of the match, the
    extent by brace counting, the code and the comment above. *)
Definition js_chunk (self : t) (m : Re.match_) (lines : list string)
    (file_path content : string) (k : chunk_type) (name signature : string)
  : chunk :=
  let start_pos := Re.m_start m in
  let start_line :=
    PyStr.count (PyStr.prefix (Z.to_nat start_pos) content) PyStr.NL + 1 in
  let end_line := _find_closing_brace self lines (start_line - 1) in
  let code := PyStr.join_lines (Py.slice lines (start_line - 1) (end_line + 1)) in
  let docstring := _extract_jsdoc self lines (start_line - 1) in
  mkChunk (_generate_chunk_id self file_path name start_line)
          file_path k name signature start_line end_line code docstring None
          (_calculate_simple_complexity self code)
          (PyStr.count_words false code).

(** [_extract_js_function]. *)
Definition _extract_js_function (self : t) (m : Re.match_) (lines : list string)
    (file_path content : string) : chunk :=
  let name := group_text m 2 in
  let params := group_text m 3 in
  js_chunk self m lines file_path content Function name
    ("function " +:+ name +:+ "(" +:+ params +:+ ")").

(** [_extract_js_arrow_function]. *)
Definition _extract_js_arrow_function (self : t) (m : Re.match_)
    (lines : list string) (file_path content : string) : chunk :=
  let name := group_text m 2 in
  let params := group_text m 3 in
  js_chunk self m lines file_path content Function name
    ("const " +:+ name +:+ " = (" +:+ params +:+ ") =>").

(** [_extract_js_class]. *)
Definition _extract_js_class (self : t) (m : Re.match_) (lines : list string)
    (file_path content : string) : chunk :=
  let name := group_text m 1 in
  js_chunk self m lines file_path content Class name ("class " +:+ name).

(** [_chunk_javascript]: functions, then arrow functions, then classes. *)
Definition _chunk_javascript (self : t) (file_path content : string)
  : list chunk :=
  let lines := PyStr.split_lines content in
  map (fun m => _extract_js_function self m lines file_path content)
      (Re.finditer func_pattern content)
  ++ map (fun m => _extract_js_arrow_function self m lines file_path content)
      (Re.finditer arrow_pattern content)
  ++ map (fun m => _extract_js_class self m lines file_path content)
      (Re.finditer class_pattern content).

(** *** The structured-parse strategy *)

Definition decision_weight (n : Ast.node) : Z :=
  match Ast.kind_of n with
  | Ast.If | Ast.For | Ast.While | Ast.Try | Ast.ExceptHandler | Ast.With => 1
  | Ast.BoolOp => Py.len (Ast.body n) - 1
  | _ => 0
  end.

(** [_calculate_ast_complexity]. *)
Definition _calculate_ast_complexity (self : t) (n : Ast.node) : Z :=
  fold_left (fun complexity child => complexity + decision_weight child)
            (Ast.walk n) 1.

(** [node.end_lineno or start_line]. *)
Definition end_or (end_lineno : option Z) (start_line : Z) : Z :=
  match end_lineno with
  | Some e => if e =? 0 then start_line else e
  | None => start_line
  end.

Definition source_lines (content : string) (start_line end_line : Z) : string :=
  PyStr.join_lines (Py.slice (PyStr.split_lines content) (start_line - 1) end_line).

(** [_extract_python_function]; [None] when [n] is no function definition. *)
Definition _extract_python_function (self : t) (n : Ast.node)
    (file_path content : string) : option chunk :=
  match Ast.kind_of n with
  | Ast.FunctionDef fname lineno end_lineno args doc =>
      let start_line := lineno in
      let end_line := end_or end_lineno start_line in
      let code := source_lines content start_line end_line in
      Some (mkChunk (_generate_chunk_id self file_path fname start_line)
              file_path Function fname
              ("def " +:+ fname +:+ "(" +:+ String.concat ", " args +:+ ")")
              start_line end_line code (default "" doc) None
              (_calculate_ast_complexity self n)
              (PyStr.count_words false code))
  | _ => None
  end.

(** [_extract_python_class]. *)
Definition _extract_python_class (self : t) (n : Ast.node)
    (file_path content : string) : option chunk :=
  match Ast.kind_of n with
  | Ast.ClassDef cname lineno end_lineno doc =>
      let start_line := lineno in
      let end_line := end_or end_lineno start_line in
      let code := source_lines content start_line end_line in
      Some (mkChunk (_generate_chunk_id self file_path cname start_line)
              file_path Class cname ("class " +:+ cname)
              start_line end_line code (default "" doc) None
              (_calculate_ast_complexity self n)
              (PyStr.count_words false code))
  | _ => None
  end.

(** [_extract_python_method]: the function chunk with its type, parent and
    id replaced. *)
Definition _extract_python_method (self : t) (n : Ast.node) (class_name : string)
    (file_path content : string) : option chunk :=
  match _extract_python_function self n file_path content with
  | Some c =>
      Some (mkChunk
              (_generate_chunk_id self file_path
                 (class_name +:+ "." +:+ name c) (start_line c))
              (CodeChunker.file_path c) Method (name c) (signature c)
              (start_line c) (end_line c) (code c) (docstring c)
              (Some class_name) (complexity c) (token_count c))
  | None => None
  end.

(** The body of the loop of [_chunk_python] for one node of the walk. *)
Definition visit (self : t) (file_path content : string) (n : Ast.node)
  : list chunk :=
  match Ast.kind_of n with
  | Ast.FunctionDef _ _ _ _ _ =>
      option_list (_extract_python_function self n file_path content)
  | Ast.ClassDef cname _ _ _ =>
      option_list (_extract_python_class self n file_path content)
      ++ flat_map (fun item =>
           option_list (_extract_python_method self item cname file_path content))
           (Ast.body n)
  | _ => []
  end.

Section WithParser.

(** [ast.parse]: a tree, [SyntaxError], or another exception. *)
Variable ast_parse : string -> result Ast.node.

(** [_chunk_python]: only [SyntaxError] is caught. *)
Definition _chunk_python (self : t) (file_path content : string)
  : result (list chunk) :=
  match ast_parse content with
  | Ok tree => Ok (flat_map (visit self file_path content) (Ast.walk tree))
  | Raise SyntaxError => Ok (_chunk_generic self file_path content)
  | Raise e => Raise e
  end.

(** [chunk_file]: a missing or unreadable file gives no chunk. *)
Definition chunk_file (self : t) (fs : FS.t) (file_path language : string)
  : result (list chunk) :=
  let full_path := FS.joinpath (project_path self) file_path in
  if negb (FS.exists_ fs full_path) then Ok []
  else
    match FS.read_text fs full_path with
    | Raise _ => Ok []
    | Ok content =>
        if String.eqb language "python" then
          _chunk_python self file_path content
        else if String.eqb language "javascript"
                || String.eqb language "typescript" then
          Ok (_chunk_javascript self file_path content)
        else Ok (_chunk_generic self file_path content)
    end.

End WithParser.

End CodeChunker.

(** ** The parts of [pathlib] used on relative file paths *)

Module PyPath.

(** The characters after the last occurrence of [sep], or all of them. *)
Fixpoint after_last (sep : ascii) (s : string) : string :=
  match s with
  | EmptyString => EmptyString
  | String c s' =>
      if PyStr.contains (String sep EmptyString) s'
      then after_last sep s'
      else if Ascii.eqb c sep then s' else s
  end.

(** [Path(p).name]. *)
Definition name (p : string) : string := after_last "/" p.

(** [Path(p).suffix]: from the last dot of the name, unless that dot is the
    first or the last character. *)
Definition suffix (p : string) : string :=
  let n := name p in
  if PyStr.contains "." n then
    let ext := after_last "." n in
    if String.eqb ext "" then ""
    else if (String.length ext + 1 <? String.length n)%nat
    then "." +:+ ext else ""
  else "".

End PyPath.

(** ** file_processor.py: detailed metadata *)

Module FileProcessor.

Record t : Type := mkProcessor { project_path : string }.

(** The metadata dictionary of [extract_file_metadata]; the entries
    [file_size] (from [stat]) and [imports] (a list made from a Python
    [set]) are left out. *)
Record metadata : Type := mkMetadata {
  file_path : string;
  file_name : string;
  file_extension : string;
  lines_of_code : Z;
  has_classes : bool;
  has_functions : bool;
  complexity_score : Q
}.

Definition decision_keywords : list string :=
  ["if "; "elif "; "else:"; "for "; "while "; "try:"; "except:"].

Definition nonblank (l : string) : bool :=
  negb (String.eqb (PyStr.strip l) "").

(** [_calculate_complexity]: decision keywords per non-blank line, times
    ten. *)
Definition _calculate_complexity (self : t) (content : string) : Q :=
  let complexity :=
    CodeChunker.sum (map (PyStr.count content) decision_keywords) in
  let lines := Py.len (List.filter nonblank (PyStr.split_lines content)) in
  (inject_Z complexity / inject_Z (Z.max lines 1) * 10)%Q.

Definition is_code_line (l : string) : bool :=
  let s := PyStr.strip l in
  negb (String.eqb s "")
  && negb (PyStr.startswith "#" s || PyStr.startswith "//" s
           || PyStr.startswith "/*" s).

(** [extract_file_metadata]: the defaults stay when the file is missing or
    cannot be read. *)
Definition extract_file_metadata (self : t) (fs : FS.t) (path : string)
  : metadata :=
  let full_path := FS.joinpath (project_path self) path in
  let blank :=
    mkMetadata path (PyPath.name path) (PyPath.suffix path) 0 false false 0 in
  if negb (FS.exists_ fs full_path) then blank
  else
    match FS.read_text fs full_path with
    | Raise _ => blank
    | Ok content =>
        mkMetadata path (PyPath.name path) (PyPath.suffix path)
          (Py.len (List.filter is_code_line (PyStr.split_lines content)))
          (PyStr.contains "class " content)
          (existsb (fun keyword => PyStr.contains keyword content)
                   ["def "; "function "; "func "; "fn "])
          (_calculate_complexity self content)
    end.

End FileProcessor.

(** ** repo_analyser.py: project-type detection *)

Module RepositoryAnalyzer.

Record patterns : Type := mkPatterns {
  files : list string;
  imports : list string;
  configs : list string;
  indicators : list string
}.

(** [PROJECT_PATTERNS], in insertion order. *)
Definition PROJECT_PATTERNS : list (string * patterns) :=
  [("fastapi",
    mkPatterns ["main.py"; "app.py"]
               ["from fastapi import"; "import fastapi"]
               ["backend_requirements.txt"; "pyproject.toml"]
               ["@app.get"; "@app.post"; "FastAPI("]);
   ("flask",
    mkPatterns ["app.py"; "wsgi.py"]
               ["from flask import"; "import flask"]
               ["backend_requirements.txt"]
               ["@app.route"; "Flask(__name__)"]);
   ("django",
    mkPatterns ["manage.py"; "wsgi.py"]
               ["django"]
               ["backend_requirements.txt"; "settings.py"]
               ["INSTALLED_APPS"; "DATABASES"]);
   ("react",
    mkPatterns ["package.json"; "src/App.js"; "src/index.js"]
               ["import React"; "from 'react'"]
               ["package.json"; "tsconfig.json"]
               ["React.Component"; "useState"; "useEffect"]);
   ("express",
    mkPatterns ["package.json"; "server.js"; "app.js"]
               ["express"; "const express"]
               ["package.json"]
               ["app.listen"; "express()"]);
   ("spring_boot",
    mkPatterns ["pom.xml"; "build.gradle"]
               ["org.springframework"]
               ["application.properties"; "application.yml"]
               ["@SpringBootApplication"; "@RestController"])].

Record t : Type := mkAnalyzer {
  project_path : string;
  files_list : list string
}.

(** [s.endswith(p)]. *)
Definition endswith (p s : string) : bool :=
  (String.length p <=? String.length s)%nat
  && String.eqb (String.substring (String.length s - String.length p)
                   (String.length p) s) p.

(** [_file_exists]. *)
Definition _file_exists (self : t) (pattern : string) : bool :=
  existsb (fun file => endswith pattern file || PyStr.contains pattern file)
          (files_list self).

Definition checked_suffixes : list string :=
  [".py"; ".js"; ".java"; ".ts"; ".jsx"; ".tsx"].

(** The loop of [_check_file_contents]: the score and the number of files
    read after the files in [paths]. *)
Fixpoint check_loop (self : t) (fs : FS.t) (p : patterns)
    (paths : list string) (score files_checked : Z) : Z * Z :=
  match paths with
  | [] => (score, files_checked)
  | file_path :: rest =>
      let full_path := FS.joinpath (project_path self) file_path in
      if Py.contains checked_suffixes (PyPath.suffix full_path) then
        match FS.read_text fs full_path with
        | Ok text =>
            let content := PyStr.prefix 5000 text in
            let hits l :=
              Py.len (List.filter (fun s => PyStr.contains s content) l) in
            check_loop self fs p rest
              (score + hits (imports p) + hits (indicators p))
              (files_checked + 1)
        | Raise _ => check_loop self fs p rest score files_checked
        end
      else check_loop self fs p rest score files_checked
  end.

(** [_check_file_contents]: the first ten files, capped at 5. *)
Definition _check_file_contents (self : t) (fs : FS.t) (p : patterns) : Q :=
  let '(score, files_checked) :=
    check_loop self fs p (firstn 10 (files_list self)) 0 0 in
  let average := (inject_Z score / inject_Z (Z.max files_checked 1))%Q in
  if Qle_bool average 5 then average else 5%Q.

(** The score and the maximal score of one signature. *)
Definition score_of (self : t) (fs : FS.t) (p : patterns) : Q * Z :=
  let count l :=
    Py.len (List.filter (_file_exists self) l) in
  let score := 3 * count (files p) + 2 * count (configs p) in
  let max_score := 3 * Py.len (files p) + 2 * Py.len (configs p) + 5 in
  ((inject_Z score + _check_file_contents self fs p)%Q, max_score).

(** The dictionary [scores], in insertion order. *)
Definition scores (self : t) (fs : FS.t) : list (string * Q) :=
  flat_map (fun entry : string * patterns =>
    let '(score, max_score) := score_of self fs (snd entry) in
    if 0 <? max_score then [(fst entry, (score / inject_Z max_score)%Q)]
    else [])
    PROJECT_PATTERNS.

(** [max(items, key=...)]: the first item with the greatest key. *)
Fixpoint max_from (best : string * Q) (items : list (string * Q))
  : string * Q :=
  match items with
  | [] => best
  | x :: rest =>
      max_from (if Qle_bool (snd x) (snd best) then best else x) rest
  end.

(** [_detect_project_type]. *)
Definition _detect_project_type (self : t) (fs : FS.t) : string * Q :=
  match scores self fs with
  | [] => ("unknown", 0%Q)
  | first :: rest => max_from first rest
  end.

End RepositoryAnalyzer.

(** ** models/progress.py and progress_tracker.py *)

Module Status.
Inductive t : Type := QUEUED | IN_PROGRESS | COMPLETED | FAILED | CANCELLED.
End Status.

Module Stage.
Inductive t : Type :=
| UPLOAD | EXTRACTION | ANALYSIS | FILE_PROCESSING | CODE_CHUNKING
| SEMANTIC_INDEXING | DOC_GENERATION | COMPLETED.

Definition eqb (a b : t) : bool :=
  match a, b with
  | UPLOAD, UPLOAD | EXTRACTION, EXTRACTION | ANALYSIS, ANALYSIS
  | FILE_PROCESSING, FILE_PROCESSING | CODE_CHUNKING, CODE_CHUNKING
  | SEMANTIC_INDEXING, SEMANTIC_INDEXING | DOC_GENERATION, DOC_GENERATION
  | COMPLETED, COMPLETED => true
  | _, _ => false
  end.

(** [list(ProgressStage)]: the members in definition order. *)
Definition order : list t :=
  [UPLOAD; EXTRACTION; ANALYSIS; FILE_PROCESSING; CODE_CHUNKING;
   SEMANTIC_INDEXING; DOC_GENERATION; COMPLETED].
End Stage.

Module Activity.
Inductive kind : Type := INFO | SUCCESS | WARNING | ERROR | MILESTONE.

Record t : Type := mkActivity {
  activity_type : kind;
  stage : Stage.t;
  message : string;
  details : option string;
  file_name : option string;
  file_path : option string
}.
End Activity.

Module ProgressTracker.

(** The row [ProjectProgress]; times are integers. *)
Record ProjectProgress : Type := mkProgress {
  status : Status.t;
  current_stage : Stage.t;
  overall_percentage : Q;
  current_stage_percentage : Q;
  total_files : Z;
  processed_files : Z;
  current_file : option string;
  total_chunks : Z;
  processed_chunks : Z;
  started_at : option Z;
  completed_at : option Z;
  error_message : option string
}.

(** The tracker: the row and its activity feed, oldest entry first. *)
Record t : Type := mkTracker {
  progress : ProjectProgress;
  activities : list Activity.t
}.

(** The row created by [_get_or_create_progress] with the column defaults. *)
Definition new_progress : ProjectProgress :=
  mkProgress Status.QUEUED Stage.UPLOAD 0 0 0 0 None 0 0 None None None.

Definition create : t := mkTracker new_progress [].

Definition _stage_label (stage : Stage.t) : string :=
  match stage with
  | Stage.UPLOAD => "Uploading Files"
  | Stage.EXTRACTION => "Extracting Archive"
  | Stage.ANALYSIS => "Analyzing Repository Structure"
  | Stage.FILE_PROCESSING => "Processing Code Files"
  | Stage.CODE_CHUNKING => "Breaking Down Code"
  | Stage.SEMANTIC_INDEXING => "Building Code Understanding"
  | Stage.DOC_GENERATION => "Generating Documentation"
  | Stage.COMPLETED => "Complete"
  end.

(** [add_activity]: [stage or self.progress.current_stage]. *)
Definition add_activity (self : t) (k : Activity.kind) (message : string)
    (stage : option Stage.t) (details file_name file_path : option string) : t :=
  mkTracker (progress self)
    (activities self ++
     [Activity.mkActivity k (default (current_stage (progress self)) stage)
        message details file_name file_path]).

Definition add_info (self : t) (message : string) (details : option string) : t :=
  add_activity self Activity.INFO message None details None None.

Definition stage_weights : list (Stage.t * Z) :=
  [(Stage.UPLOAD, 5); (Stage.EXTRACTION, 5); (Stage.ANALYSIS, 15);
   (Stage.FILE_PROCESSING, 25); (Stage.CODE_CHUNKING, 25);
   (Stage.SEMANTIC_INDEXING, 20); (Stage.DOC_GENERATION, 5)].

(** A dictionary keyed by stage, as an association list. *)
Fixpoint dict_get {A} (dflt : A) (m : list (Stage.t * A)) (s : Stage.t) : A :=
  match m with
  | [] => dflt
  | (s', a) :: m' => if Stage.eqb s' s then a else dict_get dflt m' s
  end.

Definition dict_has {A} (m : list (Stage.t * A)) (s : Stage.t) : bool :=
  existsb (fun e => Stage.eqb (fst e) s) m.

Definition dict_set {A} (m : list (Stage.t * A)) (s : Stage.t) (a : A)
  : list (Stage.t * A) :=
  map (fun e => if Stage.eqb (fst e) s then (fst e, a) else e) m.

(** [stage_order.index(stage)]. *)
Fixpoint index_of (l : list Stage.t) (s : Stage.t) : nat :=
  match l with
  | [] => O
  | s' :: l' => if Stage.eqb s' s then O else S (index_of l' s)
  end.

(** [_update_overall_percentage]: earlier stages count 100, the current one
    its percentage, later ones 0, weighted. *)
Definition overall_of (stage : Stage.t) (stage_percentage : Q) : Q :=
  let completed0 := map (fun e : Stage.t * Z => (fst e, 0%Q)) stage_weights in
  let current_index := index_of Stage.order stage in
  let completed1 :=
    fold_left (fun m s => if dict_has stage_weights s then dict_set m s 100%Q else m)
              (firstn current_index Stage.order) completed0 in
  let completed2 :=
    if dict_has stage_weights stage
    then dict_set completed1 stage stage_percentage else completed1 in
  let total_weight := CodeChunker.sum (map snd stage_weights) in
  let weighted_sum :=
    fold_right Qplus 0%Q
      (map (fun e : Stage.t * Z =>
              (dict_get 0%Q completed2 (fst e) * inject_Z (snd e) / 100)%Q)
           stage_weights) in
  (weighted_sum / inject_Z total_weight * 100)%Q.

Definition _update_overall_percentage (p : ProjectProgress) : ProjectProgress :=
  mkProgress (status p) (current_stage p)
    (overall_of (current_stage p) (current_stage_percentage p))
    (current_stage_percentage p) (total_files p) (processed_files p)
    (current_file p) (total_chunks p) (processed_chunks p)
    (started_at p) (completed_at p) (error_message p).

(** [start_stage(stage, total_items)] at time [now]. *)
Definition start_stage (self : t) (now : Z) (stage : Stage.t) (total_items : Z)
  : t :=
  let p := progress self in
  let '(tf, pf, tc, pc) :=
    match stage with
    | Stage.FILE_PROCESSING => (total_items, 0, total_chunks p, processed_chunks p)
    | Stage.CODE_CHUNKING => (total_files p, processed_files p, total_items, 0)
    | _ => (total_files p, processed_files p, total_chunks p, processed_chunks p)
    end in
  let p' :=
    mkProgress Status.IN_PROGRESS stage (overall_percentage p) 0
      tf pf (current_file p) tc pc
      (match started_at p with Some s => Some s | None => Some now end)
      (completed_at p) (error_message p) in
  add_activity (mkTracker p' (activities self)) Activity.MILESTONE
    ("Started: " +:+ _stage_label stage) (Some stage) None None None.

(** [complete_stage(stage)]. *)
Definition complete_stage (self : t) (stage : Stage.t) : t :=
  let p := progress self in
  let p' :=
    _update_overall_percentage
      (mkProgress (status p) (current_stage p) (overall_percentage p) 100
         (total_files p) (processed_files p) (current_file p)
         (total_chunks p) (processed_chunks p)
         (started_at p) (completed_at p) (error_message p)) in
  add_activity (mkTracker p' (activities self)) Activity.SUCCESS
    ("Completed: " +:+ _stage_label stage) (Some stage) None None None.

(** [complete_processing()] at time [now] (the message without its
    leading emoji). *)
Definition complete_processing (self : t) (now : Z) : t :=
  let p := progress self in
  let p' :=
    mkProgress Status.COMPLETED Stage.COMPLETED 100
      (current_stage_percentage p) (total_files p) (processed_files p)
      (current_file p) (total_chunks p) (processed_chunks p)
      (started_at p) (Some now) (error_message p) in
  add_activity (mkTracker p' (activities self)) Activity.MILESTONE
    "Analysis Complete! Your documentation is ready."
    (Some Stage.COMPLETED) None None None.

(** [mark_failed(error_message)] at time [now]. *)
Definition mark_failed (self : t) (now : Z) (error : string) : t :=
  let p := progress self in
  let p' :=
    mkProgress Status.FAILED (current_stage p) (overall_percentage p)
      (current_stage_percentage p) (total_files p) (processed_files p)
      (current_file p) (total_chunks p) (processed_chunks p)
      (started_at p) (Some now) (Some error) in
  add_activity (mkTracker p' (activities self)) Activity.ERROR
    ("Processing failed: " +:+ error) None None None None.

(** [update_file_progress(file_name, file_path, current, total)]. *)
Definition update_file_progress (self : t) (file_name file_path : string)
    (current total : Z) : t :=
  let p := progress self in
  let pct :=
    if 0 <? total then (inject_Z current / inject_Z total * 100)%Q
    else current_stage_percentage p in
  let p' :=
    _update_overall_percentage
      (mkProgress (status p) (current_stage p) (overall_percentage p) pct
         total current (Some file_name) (total_chunks p) (processed_chunks p)
         (started_at p) (completed_at p) (error_message p)) in
  let self' := mkTracker p' (activities self) in
  if (current mod 10 =? 0) || (current =? total) then
    add_activity self' Activity.INFO
      ("Processing file " +:+ PyStr.of_int current +:+ "/"
         +:+ PyStr.of_int total +:+ ": " +:+ file_name)
      None None (Some file_name) (Some file_path)
  else self'.

(** [update_chunk_progress(file_name, chunks_created)]. *)
Definition update_chunk_progress (self : t) (file_name : string)
    (chunks_created : Z) : t :=
  let p := progress self in
  let processed := processed_chunks p + chunks_created in
  let pct :=
    if 0 <? total_chunks p
    then (inject_Z processed / inject_Z (total_chunks p) * 100)%Q
    else current_stage_percentage p in
  let p' :=
    _update_overall_percentage
      (mkProgress (status p) (current_stage p) (overall_percentage p) pct
         (total_files p) (processed_files p) (current_file p)
         (total_chunks p) processed
         (started_at p) (completed_at p) (error_message p)) in
  add_activity (mkTracker p' (activities self)) Activity.INFO
    ("Created " +:+ PyStr.of_int chunks_created +:+ " code chunks from "
       +:+ file_name)
    None None (Some file_name) None.

End ProgressTracker.

(** ** preprocessing_sys.py: the code-chunking stage *)

Module PreprocessingOrchestrator.

(** The columns of [FileMetadata] read by the stage. *)
Record FileMetadata : Type := mkFile {
  file_path : string;
  file_name : string;
  language : option string;
  priority_level : Z;
  should_skip : bool
}.

(** [sorted(files, key=priority_level, reverse=True)]: descending, files of
    equal priority in their original order. *)
Fixpoint insert (f : FileMetadata) (l : list FileMetadata) : list FileMetadata :=
  match l with
  | [] => [f]
  | g :: l' => if priority_level g <=? priority_level f then f :: g :: l'
               else g :: insert f l'
  end.

Definition sorted_files (l : list FileMetadata) : list FileMetadata :=
  fold_right insert [] l.

Section WithParser.
Variable ast_parse : string -> result Ast.node.

(** The loop of [_run_code_chunking]: files that are skipped or have no
    language are passed over; an exception of the chunker ends the stage. *)
Fixpoint chunking_loop (chunker : CodeChunker.t) (fs : FS.t)
    (tracker : ProgressTracker.t) (all_chunks : list CodeChunker.chunk)
    (files : list FileMetadata)
  : result (ProgressTracker.t * list CodeChunker.chunk) :=
  match files with
  | [] => Ok (tracker, all_chunks)
  | file_meta :: rest =>
      match should_skip file_meta, language file_meta with
      | false, Some (String c l as lang) =>
          chunks ← CodeChunker.chunk_file ast_parse chunker fs
                     (file_path file_meta) lang;
          chunking_loop chunker fs
            (ProgressTracker.update_chunk_progress tracker
               (file_name file_meta) (Py.len chunks))
            (all_chunks ++ chunks) rest
      | _, _ => chunking_loop chunker fs tracker all_chunks rest
      end
  end.

(** The stage up to the end of the loop: [start_stage] with the number of
    files, then the loop. *)
Definition start_code_chunking (chunker : CodeChunker.t) (fs : FS.t)
    (now : Z) (tracker : ProgressTracker.t) (files : list FileMetadata)
  : result (ProgressTracker.t * list CodeChunker.chunk) :=
  let sorted := sorted_files files in
  chunking_loop chunker fs
    (ProgressTracker.start_stage tracker now Stage.CODE_CHUNKING
       (Py.len sorted))
    [] sorted.

(** [_run_code_chunking]. *)
Definition _run_code_chunking (chunker : CodeChunker.t) (fs : FS.t)
    (now : Z) (tracker : ProgressTracker.t) (files : list FileMetadata)
  : result (ProgressTracker.t * list CodeChunker.chunk) :=
  r ← start_code_chunking chunker fs now tracker files;
  let '(tracker1, all_chunks) := r in
  let tracker2 :=
    ProgressTracker.complete_stage tracker1 Stage.CODE_CHUNKING in
  let count (k : CodeChunker.chunk_type) :=
    Py.len (List.filter (fun c =>
      match CodeChunker.kind c, k with
      | CodeChunker.Function, CodeChunker.Function
      | CodeChunker.Class, CodeChunker.Class => true
      | _, _ => false
      end) all_chunks) in
  Ok (ProgressTracker.add_info tracker2
        ("Created " +:+ PyStr.of_int (Py.len all_chunks) +:+ " code chunks")
        (Some ("Functions: " +:+ PyStr.of_int (count CodeChunker.Function)
               +:+ ", Classes: " +:+ PyStr.of_int (count CodeChunker.Class))),
      all_chunks).

End WithParser.

End PreprocessingOrchestrator.

(** ** Notions used to state the properties *)

Module Notions.

(** Order of two entries of a result row by distance. *)
Definition dist_le (h1 h2 : faiss.hit) : Prop := (fst h1 <= fst h2)%Q.

(** The similarity reported for a distance. *)
Definition similarity_of (distance : Q) : Q := (1 / (1 + distance))%Q.

(** The position of the stored vector an entry of a result row names. *)
Definition label_of (h : faiss.hit) : nat := Z.to_nat (snd h).

(** The number of stored embeddings within reach of the query embedding
    [x]: those at squared distance below [FLT_MAX], the only ones a flat
    index reports. *)
Definition within_reach (x : vec) (embeddings : list vec) : nat :=
  List.length
    (List.filter
       (fun e => negb (Qle_bool faiss.FLT_MAX (faiss.fvec_L2sqr x e)))
       embeddings).

(** [r] is the hit of the chunk stored at position [label]: it carries the
    id of that chunk, and its similarity is [1 / (1 + distance)] for the
    squared Euclidean distance between the query embedding [x] and the
    embedding of that chunk. *)
Definition hit_of (chunks : list SemanticSearch.chunk) (embeddings : list vec)
    (x : vec) (r : SemanticSearch.hit) (label : nat) : Prop :=
  exists (c : SemanticSearch.chunk) (e : vec),
    nth_error chunks label = Some c /\
    nth_error embeddings label = Some e /\
    SemanticSearch.chunk_id r = SemanticSearch.id c /\
    SemanticSearch.similarity_score r = (1 / (1 + faiss.fvec_L2sqr x e))%Q.

(** The unit name that enters the id of a chunk: ["block"] for a generic
    block, [Class.method] for a method, the name otherwise. *)
Definition unit_name (c : CodeChunker.chunk) : string :=
  match CodeChunker.kind c, CodeChunker.parent_class c with
  | CodeChunker.Block, _ => "block"
  | CodeChunker.Method, Some cls => cls +:+ "." +:+ CodeChunker.name c
  | _, _ => CodeChunker.name c
  end.

(** The id of [c] is the hash of its triple. *)
Definition keyed (self : CodeChunker.t) (c : CodeChunker.chunk) : Prop :=
  CodeChunker.id c
  = CodeChunker._generate_chunk_id self (CodeChunker.file_path c)
      (unit_name c) (CodeChunker.start_line c).

(** Both percentages of a row lie in [0, 100]. *)
Definition in_range (p : ProgressTracker.ProjectProgress) : Prop :=
  ((0 <= ProgressTracker.current_stage_percentage p)%Q /\ (ProgressTracker.current_stage_percentage p <= 100)%Q) /\
  ((0 <= ProgressTracker.overall_percentage p)%Q /\ (ProgressTracker.overall_percentage p <= 100)%Q).

End Notions.

Module Demo.
Import SemanticSearch.

(** A stand-in encoder with 384 components: the first one is the length of
    the text. *)
Definition encoder (text : string) : vec :=
  inject_Z (Z.of_nat (String.length text)) :: repeat 0%Q 383.

Definition fn (i n : string) : chunk := mkChunk i n "" "" [] "".

(** Two chunks with the same text (the same function in two files). *)
Definition twins : list chunk := [fn "id1" "run"; fn "id2" "run"].

(** Two chunks with different texts. *)
Definition pair : list chunk := [fn "id1" "run"; fn "id2" "start"].

Definition twins_index : t :=
  mkSearch encoder 384
    (Some (faiss.mkIndex 384 (create_embeddings (init encoder) twins)))
    ["id1"; "id2"].

Definition pair_index : t :=
  mkSearch encoder 384
    (Some (faiss.mkIndex 384 (create_embeddings (init encoder) pair)))
    ["id1"; "id2"].

Definition empty_fs : FS.t := FS.mkFS ∅ ∅.
End Demo.


Module DemoProject.

Definition chunker : CodeChunker.t := CodeChunker.mkChunker "/proj".

(** A one-line JavaScript class. *)
Definition app_js : string := "class A {}".

(** Three one-line JavaScript classes. *)
Definition models_js : string :=
  "class A {}" +:+ PyStr.NL +:+ "class B {}" +:+ PyStr.NL +:+ "class C {}".

(** A Go file of three lines: two blocks around one blank line. *)
Definition main_go : string :=
  "package main // entry point" +:+ PyStr.NL +:+ PyStr.NL
  +:+ "func main() { run() }".

(** A file with the extension of Python that is not Python. *)
Definition broken_py : string :=
  "class A {" +:+ PyStr.NL +:+ "  constructor() { this.x = 1; }"
  +:+ PyStr.NL +:+ "}".

(** A Python function with two [if] and one [for]. *)
Definition util_py : string :=
  "def f(x):" +:+ PyStr.NL
  +:+ "    if x:" +:+ PyStr.NL
  +:+ "        x = 1" +:+ PyStr.NL
  +:+ "    if x:" +:+ PyStr.NL
  +:+ "        x = 2" +:+ PyStr.NL
  +:+ "    for y in x:" +:+ PyStr.NL
  +:+ "        x = y".

Definition util_tree : Ast.node :=
  Ast.Node Ast.Other [] [
    Ast.Node (Ast.FunctionDef "f" 1 (Some 7) ["x"] None)
      [Ast.Node Ast.Other [] [] []]
      [Ast.Node Ast.If [Ast.Node Ast.Other [] [] []] [Ast.Node Ast.Other [] [] []] [];
       Ast.Node Ast.If [Ast.Node Ast.Other [] [] []] [Ast.Node Ast.Other [] [] []] [];
       Ast.Node Ast.For [Ast.Node Ast.Other [] [] []] [Ast.Node Ast.Other [] [] []] []]
      []] [].

(** A constant without decision keywords. *)
Definition settings_py : string := "x = 1".

(** The parser on the files of the project: [util.py] parses, any other
    text is rejected. *)
Definition parser (content : string) : result Ast.node :=
  if String.eqb content util_py then Ok util_tree else Raise SyntaxError.

Definition fs : FS.t :=
  FS.mkFS ∅
    (<[ "/proj/app.js" := FS.Bytes app_js ]>
     (<[ "/proj/models.js" := FS.Bytes models_js ]>
      (<[ "/proj/main.go" := FS.Bytes main_go ]>
       (<[ "/proj/broken.py" := FS.Bytes broken_py ]>
        (<[ "/proj/util.py" := FS.Bytes util_py ]>
         (<[ "/proj/settings.py" := FS.Bytes settings_py ]> ∅)))))).

(** The same project unpacked under two directories, as two runs of the
    pipeline see it. *)
Definition run1 : CodeChunker.t := CodeChunker.mkChunker "/tmp/run1".

Definition run2 : CodeChunker.t := CodeChunker.mkChunker "/tmp/run2".

Definition fs_run1 : FS.t :=
  FS.mkFS ∅ (<[ "/tmp/run1/app.js" := FS.Bytes app_js ]> ∅).

Definition fs_run2 : FS.t :=
  FS.mkFS ∅ (<[ "/tmp/run2/app.js" := FS.Bytes app_js ]> ∅).

End DemoProject.

(** * Checks of the embedding on known values *)

Section KnownValues.

(** The test suite of RFC 1321. *)
Example md5_empty :
  MD5.hexdigest (PyStr.encode "") = "d41d8cd98f00b204e9800998ecf8427e".
Proof. vm_compute; reflexivity. Qed.

Example md5_abc :
  MD5.hexdigest (PyStr.encode "abc") = "900150983cd24fb0d6963f7d28e17f72".
Proof. vm_compute; reflexivity. Qed.

Example md5_message_digest :
  MD5.hexdigest (PyStr.encode "message digest")
  = "f96b697d7cb7938d525a2f31aaf161d0".
Proof. vm_compute; reflexivity. Qed.

Example md5_two_blocks :
  MD5.hexdigest (PyStr.encode
    "12345678901234567890123456789012345678901234567890123456789012345678901234567890")
  = "57edf4a22be3c955ac49da2e2107b67a".
Proof. vm_compute; reflexivity. Qed.

(** [str.count] does not count overlapping occurrences. *)
Example count_no_overlap : PyStr.count "aaaa" "aa" = 2.
Proof. reflexivity. Qed.

Example count_in_words : PyStr.count "if (a) {} else if (b) {} elif" "if" = 3.
Proof. reflexivity. Qed.

(** [\n\s*\n] takes the whole run of blank lines. *)
Example split_blank_lines :
  Re.split CodeChunker.blank_pattern
    ("a" +:+ PyStr.NL +:+ "  " +:+ PyStr.NL +:+ PyStr.NL +:+ " b"
     +:+ PyStr.NL +:+ PyStr.NL)
  = ["a"; " b"; ""].
Proof. vm_compute; reflexivity. Qed.

(** The optional [extends] group of the class pattern. *)
Example class_pattern_groups :
  map (fun m => (Re.m_start m, Re.m_end m,
                 Re.group (Re.m_groups m) 1, Re.group (Re.m_groups m) 2))
      (Re.finditer CodeChunker.class_pattern
         ("class  Foo extends Bar" +:+ PyStr.NL +:+ "{ class B{"))
  = [(0, 24, Some "Foo", Some "Bar"); (25, 33, Some "B", None)].
Proof. vm_compute; reflexivity. Qed.

(** The function pattern only matches a parameter list written between
    four braces. *)
Example func_pattern_plain_js :
  Re.finditer CodeChunker.func_pattern "function f(a) { return 1; }" = [].
Proof. vm_compute; reflexivity. Qed.

Example func_pattern_braces :
  map (fun m => (Re.group (Re.m_groups m) 1, Re.group (Re.m_groups m) 2,
                 Re.group (Re.m_groups m) 3))
      (Re.finditer CodeChunker.func_pattern
         "async function go {{{{(a, b)}}}} {")
  = [(Some "async ", Some "go", Some "a, b")].
Proof. vm_compute; reflexivity. Qed.

Example suffixes :
  map PyPath.suffix ["a/b.py"; "a/.bashrc"; "a/b."; "a.b/c"; "x.tar.gz"]
  = [".py"; ""; ""; ""; ".gz"].
Proof. vm_compute; reflexivity. Qed.

(** A function with two [if] and one [for] has complexity 4. *)
Example two_ifs_one_for :
  (chunks ← CodeChunker.chunk_file DemoProject.parser DemoProject.chunker
              DemoProject.fs "util.py" "python";
   Ok (map (fun c => (CodeChunker.kind c, CodeChunker.name c,
                      CodeChunker.complexity c)) chunks))
  = Ok [(CodeChunker.Function, "f", 4)].
Proof. vm_compute; reflexivity. Qed.

(** A flask application is recognised with confidence 7/13. *)
Example detect_flask :
  let self := RepositoryAnalyzer.mkAnalyzer "/p" ["app.py"; "wsgi.py"] in
  let fs := FS.mkFS ∅ (<[ "/p/app.py" := FS.Bytes "from flask import Flask" ]> ∅) in
  fst (RepositoryAnalyzer._detect_project_type self fs) = "flask" /\
  (snd (RepositoryAnalyzer._detect_project_type self fs) == 7 # 13)%Q.
Proof. split; vm_compute; reflexivity. Qed.

(** Half of the files processed: stage 50, overall 5 + 5 + 15 + 12.5. *)
Example half_of_file_processing :
  let t :=
    ProgressTracker.update_file_progress
      (ProgressTracker.start_stage ProgressTracker.create 0
         Stage.FILE_PROCESSING 4) "a.py" "src/a.py" 2 4 in
  (ProgressTracker.current_stage_percentage (ProgressTracker.progress t) == 50)%Q /\
  (ProgressTracker.overall_percentage (ProgressTracker.progress t) == 75 # 2)%Q.
Proof. split; vm_compute; reflexivity. Qed.

(** The two nearest chunks of a query, the nearest first. *)
Example search_two_nearest :
  (rs ← SemanticSearch.search Demo.pair_index "start" 2;
   Ok (map (fun r => (SemanticSearch.chunk_id r,
                      SemanticSearch.similarity_score r,
                      SemanticSearch.rank r)) rs))
  = Ok [("id2", Notions.similarity_of 0, 1); ("id1", Notions.similarity_of 4, 2)].
Proof. vm_compute; reflexivity. Qed.

(** With fewer stored vectors than [top_k] the row of the index is padded
    with the label [-1], which [search] reads as the last id. *)
Example search_padded_row :
  (rs ← SemanticSearch.search Demo.pair_index "start" 4;
   Ok (map SemanticSearch.chunk_id rs))
  = Ok ["id2"; "id1"; "id2"; "id2"].
Proof. vm_compute; reflexivity. Qed.

(** Two runs under different project directories give the same id. *)
Example same_id_across_runs :
  CodeChunker.chunk_file DemoProject.parser DemoProject.run1
    DemoProject.fs_run1 "app.js" "javascript"
  = Ok [CodeChunker.mkChunk "29d5066d58951d76" "app.js" CodeChunker.Class
          "A" "class A" 1 0 "class A {}" "" None 1 3] /\
  CodeChunker.chunk_file DemoProject.parser DemoProject.run2
    DemoProject.fs_run2 "app.js" "javascript"
  = Ok [CodeChunker.mkChunk "29d5066d58951d76" "app.js" CodeChunker.Class
          "A" "class A" 1 0 "class A {}" "" None 1 3].
Proof. split; vm_compute; reflexivity. Qed.

End KnownValues.

(** * Properties *)

Import Notions.

Section FaissFacts.
Import faiss.

Lemma Qsquare_nonneg (a : Q) : (0 <= a * a)%Q.
Proof.
  destruct a as [n m]. unfold Qle; simpl.
  rewrite Z.mul_1_r. apply Z.square_nonneg.
Qed.

Lemma fvec_L2sqr_nonneg (x y : vec) : (0 <= fvec_L2sqr x y)%Q.
Proof.
  revert y; induction x as [|a x IH]; intros [|b y]; simpl; try apply Qle_refl.
  apply Qle_trans with (0 + 0)%Q; [apply Qle_refl|].
  apply Qplus_le_compat; [apply Qsquare_nonneg | apply IH].
Qed.

Lemma In_insert (h x : hit) (l : list hit) :
  In x (insert h l) <-> x = h \/ In x l.
Proof.
  induction l as [|h' l IH]; simpl.
  - intuition.
  - destruct (Qle_bool (fst h) (fst h')); simpl; [intuition|].
    rewrite IH. intuition.
Qed.

Lemma In_sort (x : hit) (l : list hit) : In x (sort l) <-> In x l.
Proof.
  induction l as [|h l IH]; simpl; [tauto|].
  rewrite In_insert, IH. intuition.
Qed.

Lemma insert_sorted (h : hit) (l : list hit) :
  StronglySorted dist_le l -> StronglySorted dist_le (insert h l).
Proof.
  induction 1 as [|h' l Hs IH Hall]; simpl.
  - repeat constructor.
  - destruct (Qle_bool (fst h) (fst h')) eqn:E.
    + apply Qle_bool_iff in E.
      constructor; [constructor; assumption|].
      constructor; [exact E|].
      eapply List.Forall_impl; [|exact Hall].
      intros a Ha. unfold dist_le in *. eapply Qle_trans; eassumption.
    + constructor; [exact IH|].
      apply List.Forall_forall. intros a Ha. apply In_insert in Ha.
      destruct Ha as [->|Ha].
      * unfold dist_le.
        destruct (Qlt_le_dec (fst h') (fst h)) as [Hlt|Hle].
        -- apply Qlt_le_weak, Hlt.
        -- apply Qle_bool_iff in Hle. congruence.
      * rewrite List.Forall_forall in Hall. apply Hall, Ha.
Qed.

Lemma sort_sorted (l : list hit) : StronglySorted dist_le (sort l).
Proof.
  induction l as [|h l IH]; simpl; [constructor | apply insert_sorted, IH].
Qed.

Lemma firstn_sorted {A} (R : A -> A -> Prop) (n : nat) (l : list A) :
  StronglySorted R l -> StronglySorted R (firstn n l).
Proof.
  intros Hs; revert n; induction Hs as [|a l Hs IH Hall]; intros [|n]; simpl;
    try constructor.
  - apply IH.
  - apply Forall_take, Hall.
Qed.
End FaissFacts.

Section SearchFacts.
Import faiss.

Lemma In_enumerate_from {A} (s : Z) (l : list A) (i : Z) (a : A) :
  In (i, a) (Py.enumerate_from s l) -> s <= i < s + Py.len l.
Proof.
  revert s; induction l as [|b l IH]; intros s; simpl; [tauto|].
  unfold Py.len in *; simpl List.length.
  intros [H|H].
  - inversion H; subst. lia.
  - apply IH in H. lia.
Qed.

Lemma candidates_spec (ix : IndexFlatL2) (x : vec) (h : hit) :
  In h (candidates ix x) ->
  (0 <= fst h)%Q /\ (fst h < FLT_MAX)%Q /\ 0 <= snd h < Z.of_nat (ntotal ix).
Proof.
  unfold candidates. rewrite filter_In, in_map_iff.
  intros [[[i v] [<- Hin]] Hlt]; simpl in *.
  apply In_enumerate_from in Hin.
  repeat split; try (unfold ntotal, Py.len in *; lia).
  - apply fvec_L2sqr_nonneg.
  - apply Qnot_le_lt. intros Hle. apply Qle_bool_iff in Hle.
    rewrite Hle in Hlt. discriminate.
Qed.

Lemma sorted_app_repeat {A} (R : A -> A -> Prop) (l : list A) (p : A) (n : nat) :
  StronglySorted R l -> List.Forall (fun a => R a p) l -> R p p ->
  StronglySorted R (l ++ repeat p n).
Proof.
  intros Hs Hall Hp. induction Hs as [|a l Hs IH Ha]; simpl.
  - induction n as [|n IHn]; simpl; constructor; [exact IHn|].
    apply List.Forall_forall. intros y Hy. apply repeat_spec in Hy. now subst.
  - inversion Hall as [|? ? Hap Hall']; subst.
    constructor; [apply IH, Hall'|].
    apply Forall_app. split; [exact Ha|].
    apply List.Forall_forall. intros y Hy. apply repeat_spec in Hy. now subst.
Qed.

(** A successful query row: exactly [k] entries in ascending distance, every
    label either [-1] or a stored position. *)
Lemma search_row (ix : IndexFlatL2) (x : vec) (k : Z) :
  List.length x = d ix -> 0 < k ->
  exists row, search ix x k = Ok row /\
    List.length row = Z.to_nat k /\
    StronglySorted dist_le row /\
    List.Forall (fun h : hit =>
      (0 <= fst h)%Q /\ -1 <= snd h < Z.of_nat (ntotal ix)) row.
Proof.
  intros Hd Hk. unfold search.
  rewrite Hd, Nat.eqb_refl; simpl.
  destruct (k <=? 0) eqn:E; [lia|]. clear E.
  eexists; split; [reflexivity|].
  set (best := firstn (Z.to_nat k) (sort (candidates ix x))).
  assert (Hbest : forall h, In h best -> In h (candidates ix x)).
  { intros h Hh. apply In_sort. unfold best in Hh.
    rewrite <- (firstn_skipn (Z.to_nat k) (sort (candidates ix x))).
    apply in_or_app; now left. }
  split; [|split].
  - rewrite length_app, repeat_length.
    assert (List.length best <= Z.to_nat k)%nat by apply firstn_le_length.
    lia.
  - apply sorted_app_repeat.
    + apply firstn_sorted, sort_sorted.
    + apply List.Forall_forall. intros h Hh.
      apply Hbest, candidates_spec in Hh. unfold dist_le; simpl.
      apply Qlt_le_weak. tauto.
    + apply Qle_refl.
  - apply Forall_app. split.
    + apply List.Forall_forall. intros h Hh.
      apply Hbest, candidates_spec in Hh. intuition lia.
    + apply List.Forall_forall. intros h Hh. apply repeat_spec in Hh.
      subst h; simpl. split; [discriminate | lia].
Qed.

End SearchFacts.

Section TopK.
Import faiss.

Lemma insert_perm (h : hit) (l : list hit) : Permutation (insert h l) (h :: l).
Proof.
  induction l as [|h' l IH]; simpl; [reflexivity|].
  destruct (Qle_bool (fst h) (fst h')); [reflexivity|].
  etransitivity; [apply perm_skip, IH | apply perm_swap].
Qed.

Lemma sort_perm (l : list hit) : Permutation (sort l) l.
Proof.
  induction l as [|h l IH]; simpl; [reflexivity|].
  etransitivity; [apply insert_perm | apply perm_skip, IH].
Qed.

Lemma enumerate_nth {A} (s : Z) (l : list A) (i : Z) (a : A) :
  In (i, a) (Py.enumerate_from s l) ->
  s <= i /\ nth_error l (Z.to_nat (i - s)) = Some a.
Proof.
  revert s; induction l as [|b l IH]; intros s; simpl; [tauto|].
  intros [H|H].
  - inversion H; subst. split; [lia|]. now rewrite Z.sub_diag.
  - apply IH in H as [Hle Hn]. split; [lia|].
    replace (Z.to_nat (i - s)) with (S (Z.to_nat (i - (s + 1)))) by lia.
    exact Hn.
Qed.

Lemma nth_enumerate {A} (s : Z) (l : list A) (j : nat) (a : A) :
  nth_error l j = Some a -> In (s + Z.of_nat j, a) (Py.enumerate_from s l).
Proof.
  revert s j; induction l as [|b l IH]; intros s [|j]; simpl; try discriminate.
  - intros [= ->]. left. f_equal. lia.
  - intros H. right.
    replace (s + Z.of_nat (S j)) with (s + 1 + Z.of_nat j) by lia.
    apply (IH (s + 1) j H).
Qed.

Lemma enumerate_app {A} (s : Z) (l1 l2 : list A) :
  Py.enumerate_from s (l1 ++ l2)
  = Py.enumerate_from s l1 ++ Py.enumerate_from (s + Py.len l1) l2.
Proof.
  revert s; induction l1 as [|a l1 IH]; intros s; simpl.
  - unfold Py.len; simpl. now rewrite Z.add_0_r.
  - rewrite IH. do 3 f_equal. unfold Py.len; simpl List.length. lia.
Qed.

Lemma enumerate_labels {A} (s : Z) (l : list A) :
  0 <= s ->
  map (fun p : Z * A => Z.to_nat (fst p)) (Py.enumerate_from s l)
  = seq (Z.to_nat s) (List.length l).
Proof.
  revert s; induction l as [|a l IH]; intros s Hs; simpl; [reflexivity|].
  f_equal. rewrite IH by lia. f_equal. lia.
Qed.

Lemma within_iff (dist : Q) :
  negb (Qle_bool FLT_MAX dist) = true <-> (dist < FLT_MAX)%Q.
Proof.
  rewrite negb_true_iff. split.
  - intros H. apply Qnot_le_lt. intros Hle. apply Qle_bool_iff in Hle.
    congruence.
  - intros H. destruct (Qle_bool FLT_MAX dist) eqn:E; [|reflexivity].
    apply Qle_bool_iff in E. exfalso. eapply Qlt_not_le; eassumption.
Qed.

(** The candidates of a query are the stored vectors within reach, each
    with its squared distance and its position. *)
Lemma candidates_stored (ix : IndexFlatL2) (x : vec) (h : hit) :
  In h (candidates ix x) <->
  exists (label : nat) (e : vec),
    nth_error (xb ix) label = Some e /\
    h = (fvec_L2sqr x e, Z.of_nat label) /\
    (fvec_L2sqr x e < FLT_MAX)%Q.
Proof.
  unfold candidates. rewrite filter_In, in_map_iff. split.
  - intros [[[i v] [<- Hin]] Hlt]; simpl in *.
    apply enumerate_nth in Hin as [Hi Hn]. rewrite Z.sub_0_r in Hn.
    exists (Z.to_nat i), v. repeat split; [exact Hn | f_equal; lia |].
    apply within_iff, Hlt.
  - intros (label & e & Hn & -> & Hlt). split.
    + exists (Z.of_nat label, e). split; [reflexivity|].
      apply (nth_enumerate 0 (xb ix) label e Hn).
    + simpl. apply within_iff, Hlt.
Qed.

Lemma candidates_length_from (x : vec) (s : Z) (l : list vec) :
  List.length
    (List.filter (fun h : hit => negb (Qle_bool FLT_MAX (fst h)))
       (map (fun p : Z * vec => (fvec_L2sqr x (snd p), fst p))
            (Py.enumerate_from s l)))
  = within_reach x l.
Proof.
  unfold within_reach.
  revert s; induction l as [|e l IH]; intros s; simpl; [reflexivity|].
  destruct (negb (Qle_bool FLT_MAX (fvec_L2sqr x e))); simpl; now rewrite IH.
Qed.

Lemma candidates_length (ix : IndexFlatL2) (x : vec) :
  List.length (candidates ix x) = within_reach x (xb ix).
Proof. apply candidates_length_from. Qed.

Lemma NoDup_map_filter {A B} (f : A -> B) (p : A -> bool) (l : list A) :
  List.NoDup (map f l) -> List.NoDup (map f (List.filter p l)).
Proof.
  induction l as [|a l IH]; simpl; [trivial|].
  intros H. inversion H as [|? ? Hn Hd]; subst.
  destruct (p a); simpl; [|auto]. constructor; [|auto].
  intros Hin. apply Hn. apply in_map_iff in Hin as [b [Hb Hin]].
  apply filter_In in Hin as [Hin _]. apply in_map_iff. eauto.
Qed.

Lemma NoDup_firstn {A} (n : nat) (l : list A) :
  List.NoDup l -> List.NoDup (firstn n l).
Proof.
  intros H; revert n; induction H as [|a l Hn Hd IH]; intros [|n]; simpl;
    constructor; [|apply IH].
  intros Hin. apply Hn.
  rewrite <- (firstn_skipn n l). apply in_or_app. now left.
Qed.

Lemma candidates_labels (ix : IndexFlatL2) (x : vec) :
  List.NoDup (map label_of (candidates ix x)).
Proof.
  unfold candidates. apply NoDup_map_filter. rewrite map_map.
  change (map (fun p : Z * vec => label_of (fvec_L2sqr x (snd p), fst p))
              (Py.enumerate_from 0 (xb ix)))
    with (map (fun p : Z * vec => Z.to_nat (fst p)) (Py.enumerate_from 0 (xb ix))).
  rewrite enumerate_labels by lia. apply seq_NoDup.
Qed.

Lemma best_labels (ix : IndexFlatL2) (x : vec) (n : nat) :
  List.NoDup (map label_of (firstn n (sort (candidates ix x)))).
Proof.
  rewrite <- firstn_map. apply NoDup_firstn.
  eapply Permutation_NoDup; [|apply candidates_labels].
  apply Permutation_map. symmetry. apply sort_perm.
Qed.

Lemma best_length (ix : IndexFlatL2) (x : vec) (n : nat) :
  List.length (firstn n (sort (candidates ix x)))
  = Nat.min n (within_reach x (xb ix)).
Proof.
  rewrite length_firstn, (Permutation_length (sort_perm _)).
  now rewrite candidates_length.
Qed.

Lemma sorted_app_le {A} (R : A -> A -> Prop) (l1 l2 : list A) :
  StronglySorted R (l1 ++ l2) ->
  forall a b, In a l1 -> In b l2 -> R a b.
Proof.
  induction l1 as [|c l1 IH]; simpl; intros Hs a b Ha Hb; [contradiction|].
  inversion Hs as [|? ? Hs' Hall]; subst. destruct Ha as [->|Ha].
  - rewrite List.Forall_forall in Hall. apply Hall, in_or_app. now right.
  - eapply IH; eassumption.
Qed.

(** The entries kept are the nearest: a stored vector whose position is not
    among them is no nearer than any of them. *)
Lemma best_nearest (ix : IndexFlatL2) (x : vec) (n : nat) (h : hit)
    (j : nat) (e : vec) :
  In h (firstn n (sort (candidates ix x))) ->
  nth_error (xb ix) j = Some e ->
  ~ In j (map label_of (firstn n (sort (candidates ix x)))) ->
  (fst h <= fvec_L2sqr x e)%Q.
Proof.
  intros Hh Hj Hout.
  assert (Hc : In h (candidates ix x)).
  { apply In_sort. rewrite <- (firstn_skipn n (sort (candidates ix x))).
    apply in_or_app; now left. }
  apply candidates_spec in Hc as (_ & Hlt & _).
  destruct (Qlt_le_dec (fvec_L2sqr x e) FLT_MAX) as [Hin|Hfar].
  - assert (Hs : In (fvec_L2sqr x e, Z.of_nat j) (sort (candidates ix x))).
    { apply In_sort, candidates_stored. exists j, e. auto. }
    rewrite <- (firstn_skipn n (sort (candidates ix x))) in Hs.
    apply in_app_or in Hs as [Hs|Hs].
    + exfalso. apply Hout. apply in_map_iff.
      exists (fvec_L2sqr x e, Z.of_nat j). split; [|exact Hs].
      unfold label_of; simpl. lia.
    + pose proof (sort_sorted (candidates ix x)) as Hsorted.
      rewrite <- (firstn_skipn n (sort (candidates ix x))) in Hsorted.
      exact (sorted_app_le dist_le _ _ Hsorted h _ Hh Hs).
  - apply Qlt_le_weak. eapply Qlt_le_trans; eassumption.
Qed.

End TopK.

Section SemanticSearchFacts.
Import SemanticSearch.

Lemma similarity_antitone (d1 d2 : Q) :
  (0 <= d1)%Q -> (d1 <= d2)%Q -> (similarity_of d2 <= similarity_of d1)%Q.
Proof.
  intros H0 H12. unfold similarity_of.
  assert (H1 : (0 < 1 + d1)%Q).
  { apply Qlt_le_trans with (1 + 0)%Q; [reflexivity|].
    apply Qplus_le_r, H0. }
  assert (H2 : (0 < 1 + d2)%Q).
  { eapply Qlt_le_trans; [exact H1|]. apply Qplus_le_r, H12. }
  apply Qle_shift_div_l; [exact H1|].
  assert (E : (1 / (1 + d2) * (1 + d1) == (1 + d1) / (1 + d2))%Q).
  { field. intros Hz. rewrite Hz in H2. discriminate. }
  rewrite E. apply Qle_shift_div_r; [exact H2|].
  rewrite Qmult_1_l. apply Qplus_le_r, H12.
Qed.

Lemma getitem_ok {A} (l : list A) (i : Z) :
  l <> [] -> -1 <= i < Py.len l -> exists a, Py.getitem l i = Ok a.
Proof.
  intros Hne Hi. unfold Py.getitem, Py.len in *.
  assert (0 < List.length l)%nat by (destruct l; simpl; [congruence | lia]).
  set (j := if i <? 0 then Z.of_nat (List.length l) + i else i).
  assert (0 <= j < Z.of_nat (List.length l)) by (unfold j; destruct (i <? 0) eqn:E; lia).
  destruct (j <? 0) eqn:E; [lia|].
  destruct (nth_error l (Z.to_nat j)) eqn:En; [eauto|].
  apply nth_error_None in En. lia.
Qed.

Lemma enumerate_ranks {A} (n : nat) (l : list A) :
  map (fun r : Z * A => fst r + 1) (Py.enumerate_from (Z.of_nat n) l)
  = map Z.of_nat (seq (S n) (List.length l)).
Proof.
  revert n; induction l as [|a l IH]; intros n; simpl; [reflexivity|].
  f_equal; [lia|].
  replace (Z.of_nat n + 1) with (Z.of_nat (S n)) by lia. apply IH.
Qed.

Lemma enumerate_snd {A} (s : Z) (l : list A) :
  map snd (Py.enumerate_from s l) = l.
Proof.
  revert s; induction l as [|a l IH]; intros s; simpl; [reflexivity|].
  now rewrite IH.
Qed.

Lemma enumerate_length {A} (s : Z) (l : list A) :
  List.length (Py.enumerate_from s l) = List.length l.
Proof.
  revert s; induction l as [|a l IH]; intros s; simpl; [reflexivity|].
  now rewrite IH.
Qed.

Lemma similarities_sorted (row : list faiss.hit) :
  StronglySorted dist_le row ->
  List.Forall (fun h : faiss.hit => (0 <= fst h)%Q) row ->
  StronglySorted (fun x y : Q => (y <= x)%Q)
    (map (fun h : faiss.hit => similarity_of (fst h)) row).
Proof.
  induction 1 as [|h row Hs IH Hall]; intros Hpos; simpl; constructor;
    inversion Hpos as [|? ? Hh Hpos']; subst.
  - apply IH, Hpos'.
  - apply List.Forall_forall. intros y Hy. apply in_map_iff in Hy.
    destruct Hy as [h' [<- Hin]].
    rewrite List.Forall_forall in Hall.
    apply similarity_antitone; [exact Hh | apply Hall, Hin].
Qed.

End SemanticSearchFacts.

Section RankedHits.
Import SemanticSearch.

Lemma getitem_nth {A} (l : list A) (j : nat) (a : A) :
  Py.getitem l (Z.of_nat j) = Ok a -> nth_error l j = Some a.
Proof.
  unfold Py.getitem.
  assert (E : (Z.of_nat j <? 0) = false) by (apply Z.ltb_ge; lia).
  rewrite E; simpl. rewrite E, Nat2Z.id.
  destruct (nth_error l j); [now intros [= ->] | discriminate].
Qed.

(** When every label is [-1] or a valid position of a non-empty id list,
    the loop of [search] keeps every entry of the row, in order: the hit
    made of an entry has its position as rank, the similarity of its
    distance and the id read at its label. *)
Lemma collect_hits (ids : list string) (rows : list (Z * faiss.hit)) :
  ids <> [] ->
  List.Forall (fun r : Z * faiss.hit => -1 <= snd (snd r) < Py.len ids) rows ->
  exists rs, collect ids rows = Ok rs /\
    Forall2 (fun (r : hit) (row : Z * faiss.hit) =>
               rank r = fst row + 1 /\
               similarity_score r = similarity_of (fst (snd row)) /\
               Py.getitem ids (snd (snd row)) = Ok (chunk_id r)) rs rows.
Proof.
  intros Hne. induction 1 as [|[i [dist idx]] rows Hr Hall IH]; simpl.
  - eexists; split; [reflexivity | constructor].
  - simpl in Hr. destruct IH as (rs & -> & Hrs).
    destruct (idx <? Py.len ids) eqn:E; [|lia].
    destruct (getitem_ok ids idx Hne Hr) as [cid Hcid]. rewrite Hcid. simpl.
    eexists; split; [reflexivity|]. constructor; [|exact Hrs].
    simpl. auto.
Qed.

Lemma Forall2_map_fst {A B C} (P : A -> B -> Prop) (f : A -> C) (g : B -> C)
    (l : list A) (k : list B) :
  Forall2 P l k -> (forall a b, P a b -> f a = g b) -> map f l = map g k.
Proof.
  intros H Hfg. induction H as [|a b l k Hab _ IH]; simpl; [reflexivity|].
  now rewrite (Hfg a b Hab), IH.
Qed.

Lemma Forall2_map_r_in {A B C} (P : A -> B -> Prop) (Q : A -> C -> Prop)
    (f : B -> C) (l : list A) (k : list B) :
  Forall2 P l k ->
  (forall a b, In b k -> P a b -> Q a (f b)) ->
  Forall2 Q l (map f k).
Proof.
  induction 1 as [|a b l k Hab _ IH]; intros HQ; simpl; constructor.
  - apply HQ; [now left | exact Hab].
  - apply IH. intros a' b' Hin. apply HQ. now right.
Qed.

Lemma Forall2_In_left {A B} (P : A -> B -> Prop) (l : list A) (k : list B)
    (a : A) :
  Forall2 P l k -> In a l -> exists b, In b k /\ P a b.
Proof.
  induction 1 as [|a' b l k Hab _ IH]; simpl; [contradiction|].
  intros [->|Hin]; [eauto|].
  destruct (IH Hin) as (b' & Hb' & Hp). eauto.
Qed.

Lemma enumerate_In_snd {A} (s : Z) (l : list A) (row : Z * A) :
  In row (Py.enumerate_from s l) -> In (snd row) l.
Proof.
  intros H. rewrite <- (enumerate_snd s l). apply in_map, H.
Qed.

End RankedHits.

Section SemanticSearchClaims.
Import SemanticSearch.

Lemma build_index_inv (s0 s : t) (chunks : list chunk) (embeddings : list vec) :
  build_index s0 chunks embeddings = Ok s ->
  s = mkSearch (model s0) (dimension s0)
        (Some (faiss.mkIndex (dimension s0) embeddings)) (map id chunks).
Proof.
  unfold build_index, faiss.add, faiss.new; simpl.
  match goal with |- context [forallb ?f ?l] => destruct (forallb f l) end;
    simpl; [|discriminate].
  now intros [= <-].
Qed.

(** C10: without an index, [search] answers the empty list. *)
Theorem search_without_index (s : t) (query : string) (top_k : Z) :
  index s = None -> search s query top_k = Ok [].
Proof. intros H. unfold search. now rewrite H. Qed.

Lemma search_without_index_witness :
  search (init Demo.encoder) "database connection" 5 = Ok [].
Proof. apply (search_without_index (init Demo.encoder)). reflexivity. Defined.

(** C1 (amended): on an index built from a non-empty batch of chunks with
    no more embeddings than chunks (one per chunk in the pipeline), for a
    query whose embedding has the dimension of the index and [k >= 1],
    [search] returns at most [k] results, in non-increasing similarity,
    with ranks [1..len(results)].  The first [min(k, n)] results, [n]
    being the number of stored embeddings within reach of the query, are
    the hits of pairwise distinct stored chunks: each carries the id of its
    chunk and the similarity [1 / (1 + distance)], the distance being the
    squared Euclidean distance between the query embedding and the
    embedding of that chunk, and no stored chunk left out is more similar
    to the query than one of them.  When [k <= n] there is no other
    result. *)
Theorem search_ranking (s0 s : t) (chunks : list chunk) (embeddings : list vec)
    (q : string) (k : Z) :
  build_index s0 chunks embeddings = Ok s ->
  chunks <> [] ->
  (List.length embeddings <= List.length chunks)%nat ->
  List.length (model s0 q) = dimension s0 ->
  1 <= k ->
  exists (genuine extra : list hit) (labels : list nat),
    search s q k = Ok (genuine ++ extra) /\
    Py.len (genuine ++ extra) <= k /\
    StronglySorted (fun x y : Q => (y <= x)%Q)
      (map similarity_score (genuine ++ extra)) /\
    map rank (genuine ++ extra)
      = map Z.of_nat (seq 1 (List.length (genuine ++ extra))) /\
    List.length labels
      = Nat.min (Z.to_nat k) (within_reach (model s0 q) embeddings) /\
    List.NoDup labels /\
    Forall2 (hit_of chunks embeddings (model s0 q)) genuine labels /\
    (forall (j : nat) (e : vec) (r : hit),
       nth_error embeddings j = Some e -> ~ In j labels -> In r genuine ->
       (1 / (1 + faiss.fvec_L2sqr (model s0 q) e) <= similarity_score r)%Q) /\
    ((Z.to_nat k <= within_reach (model s0 q) embeddings)%nat -> extra = []).
Proof.
  intros Hb Hne Hlen Hq Hk. apply build_index_inv in Hb. subst s.
  set (x := model s0 q) in *.
  set (ix := faiss.mkIndex (dimension s0) embeddings).
  set (best := firstn (Z.to_nat k) (faiss.sort (faiss.candidates ix x))).
  set (pad := repeat (faiss.FLT_MAX, -1) (Z.to_nat k - List.length best)).
  destruct (search_row ix x k) as (row & Hrow & Hrowlen & Hsorted & Hall);
    [exact Hq | lia |].
  assert (Erow : row = best ++ pad).
  { revert Hrow. unfold faiss.search.
    change (faiss.d ix) with (dimension s0). rewrite Hq, Nat.eqb_refl; simpl.
    destruct (k <=? 0) eqn:E; [lia|]. now intros [= <-]. }
  assert (Hbest : forall h, In h best -> In h (faiss.candidates ix x)).
  { intros h Hh. apply In_sort.
    rewrite <- (firstn_skipn (Z.to_nat k) (faiss.sort (faiss.candidates ix x))).
    apply in_or_app; now left. }
  destruct (collect_hits (map id chunks) (Py.enumerate_from 0 row))
    as (rs & Hrs & Hhits).
  { destruct chunks; [congruence | discriminate]. }
  { apply List.Forall_forall. intros [i h] Hin; simpl.
    apply enumerate_In_snd in Hin; simpl in Hin.
    rewrite List.Forall_forall in Hall. apply Hall in Hin.
    unfold faiss.ntotal, Py.len in *; simpl in Hin.
    rewrite length_map. lia. }
  assert (Hsearch : search (mkSearch (model s0) (dimension s0) (Some ix)
                              (map id chunks)) q k = Ok rs).
  { unfold search; simpl. fold x. rewrite Hrow. simpl. exact Hrs. }
  assert (Hl : List.length rs = List.length row).
  { rewrite (Forall2_length _ _ _ Hhits). apply enumerate_length. }
  assert (Hrank : map rank rs = map Z.of_nat (seq 1 (List.length rs))).
  { rewrite Hl, <- (enumerate_ranks 0 row).
    apply (Forall2_map_fst _ _ _ _ _ Hhits). intros a b Hab; apply Hab. }
  assert (Hsim : StronglySorted (fun x y : Q => (y <= x)%Q)
                   (map similarity_score rs)).
  { rewrite (Forall2_map_fst _ similarity_score
               (fun row : Z * faiss.hit => similarity_of (fst (snd row)))
               _ _ Hhits) by (intros a b Hab; apply Hab).
    rewrite <- (map_map snd (fun h : faiss.hit => similarity_of (fst h))).
    rewrite enumerate_snd. apply similarities_sorted; [exact Hsorted|].
    eapply List.Forall_impl; [|exact Hall]. intros h Hh; apply Hh. }
  rewrite Erow, enumerate_app in Hhits.
  apply List.Forall2_app_inv_r in Hhits
    as (genuine & extra & Hgen & Hext & ->).
  exists genuine, extra, (map label_of best).
  split; [exact Hsearch|]. split; [unfold Py.len; lia|].
  split; [exact Hsim|]. split; [exact Hrank|].
  split; [rewrite length_map; apply (best_length ix x)|].
  split; [apply best_labels|].
  split; [|split].
  - rewrite <- (enumerate_snd 0 best), map_map.
    apply (Forall2_map_r_in _ _ _ _ _ Hgen).
    intros r [i h] Hin (_ & Hscore & Hid); simpl in *.
    apply enumerate_In_snd in Hin; simpl in Hin.
    apply Hbest, candidates_stored in Hin as (label & e & He & -> & _).
    simpl in *. apply getitem_nth in Hid.
    rewrite nth_error_map in Hid.
    destruct (nth_error chunks label) as [c|] eqn:Ec; [|discriminate].
    injection Hid as Hid.
    exists c, e. unfold label_of; simpl. rewrite Nat2Z.id.
    repeat split; [exact Ec | exact He | now symmetry | exact Hscore].
  - intros j e r Hj Hout Hr.
    destruct (Forall2_In_left _ _ _ _ Hgen Hr) as ([i h] & Hin & _ & Hscore & _).
    simpl in Hscore. apply enumerate_In_snd in Hin; simpl in Hin.
    rewrite Hscore.
    apply (similarity_antitone (fst h) (faiss.fvec_L2sqr x e)).
    + apply Hbest, candidates_spec in Hin. tauto.
    + exact (best_nearest ix x (Z.to_nat k) h j e Hin Hj Hout).
  - intros Hreach.
    assert (Hbl : List.length best = Z.to_nat k).
    { unfold best. rewrite (best_length ix x). simpl. lia. }
    unfold pad in Hext. rewrite Hbl, Nat.sub_diag in Hext. simpl in Hext.
    now inversion Hext.
Qed.

Lemma search_ranking_witness :
  exists (genuine extra : list hit) (labels : list nat),
    search Demo.pair_index "start" 2 = Ok (genuine ++ extra) /\
    Py.len (genuine ++ extra) <= 2 /\
    StronglySorted (fun x y : Q => (y <= x)%Q)
      (map similarity_score (genuine ++ extra)) /\
    map rank (genuine ++ extra)
      = map Z.of_nat (seq 1 (List.length (genuine ++ extra))) /\
    List.length labels
      = Nat.min (Z.to_nat 2)
          (within_reach (Demo.encoder "start")
             (create_embeddings (init Demo.encoder) Demo.pair)) /\
    List.NoDup labels /\
    Forall2 (hit_of Demo.pair
               (create_embeddings (init Demo.encoder) Demo.pair)
               (Demo.encoder "start")) genuine labels /\
    (forall (j : nat) (e : vec) (r : hit),
       nth_error (create_embeddings (init Demo.encoder) Demo.pair) j = Some e ->
       ~ In j labels -> In r genuine ->
       (1 / (1 + faiss.fvec_L2sqr (Demo.encoder "start") e)
        <= similarity_score r)%Q) /\
    ((Z.to_nat 2 <= within_reach (Demo.encoder "start")
                      (create_embeddings (init Demo.encoder) Demo.pair))%nat ->
     extra = []).
Proof.
  apply (search_ranking (init Demo.encoder) Demo.pair_index Demo.pair
           (create_embeddings (init Demo.encoder) Demo.pair) "start" 2).
  - vm_compute; reflexivity.
  - discriminate.
  - simpl; lia.
  - vm_compute; reflexivity.
  - lia.
Defined.

(** C1 as stated fails: two chunks with the same text lie at the same
    distance of every query, so their similarities are equal and the
    result is not strictly descending. *)
Lemma search_strict_counterexample :
  build_index (init Demo.encoder) Demo.twins
    (create_embeddings (init Demo.encoder) Demo.twins) = Ok Demo.twins_index /\
  (rs ← search Demo.twins_index "run" 2; Ok (map similarity_score rs))
    = Ok [similarity_of 0; similarity_of 0] /\
  ~ Sorted (fun x y : Q => (y < x)%Q) [similarity_of 0; similarity_of 0].
Proof.
  split; [vm_compute; reflexivity|]. split; [vm_compute; reflexivity|].
  intros H. inversion H as [|? ? _ Hd]; subst.
  inversion Hd as [|? ? Hlt]; subst. vm_compute in Hlt. discriminate.
Qed.

(** C2: saving a built index and loading it into a fresh instance gives an
    instance that answers every query as the original does. *)
Theorem save_load_roundtrip (m : string -> vec) (chunks : list chunk)
    (embeddings : list vec) (s : t) (project_id dir : string) (fs fs' : FS.t) :
  build_index (init m) chunks embeddings = Ok s ->
  save_index s project_id dir fs = Ok fs' ->
  exists s', load_index (init m) project_id dir fs' = Ok s' /\
    forall (q : string) (k : Z), search s' q k = search s q k.
Proof.
  intros Hb Hs. apply build_index_inv in Hb. subst s.
  unfold save_index, load_index, FS.mkdir, FS.write in *; simpl in *.
  set (p := FS.joinpath dir project_id) in *.
  repeat (match type of Hs with
          | context [if ?b then _ else _] => destruct b
          end; simpl in Hs; try discriminate).
  injection Hs as <-.
  unfold FS.exists_, FS.read_index, FS.read_pickle; simpl.
  rewrite (bool_decide_eq_true_2 (p ∈ {[p]} ∪ FS.dirs fs)) by set_solver.
  simpl.
  assert (Hne : p +:+ "/" +:+ "chunk_ids.pkl" ≠ p +:+ "/" +:+ "faiss.index").
  { intros E. apply String.app_inj, String.app_inj in E. discriminate. }
  rewrite (lookup_insert_ne _ (p +:+ "/" +:+ "chunk_ids.pkl")
             (p +:+ "/" +:+ "faiss.index")) by exact Hne.
  rewrite !lookup_insert_eq. simpl.
  eexists; split; reflexivity.
Qed.

Lemma save_load_roundtrip_witness :
  exists s', load_index (init Demo.encoder) "p1" "search_indices"
               (FS.mkFS ({[ "search_indices/p1" ]} ∪ ∅)
                  (<[ "search_indices/p1/chunk_ids.pkl" := FS.PickledIds ["id1"; "id2"] ]>
                     (<[ "search_indices/p1/faiss.index" :=
                           FS.FaissIndex (faiss.mkIndex 384
                             (create_embeddings (init Demo.encoder) Demo.pair)) ]> ∅)))
             = Ok s' /\
    forall (q : string) (k : Z), search s' q k = search Demo.pair_index q k.
Proof.
  apply (save_load_roundtrip Demo.encoder Demo.pair
           (create_embeddings (init Demo.encoder) Demo.pair)
           Demo.pair_index "p1" "search_indices" Demo.empty_fs).
  - vm_compute; reflexivity.
  - reflexivity.
Defined.

(** C3 fails on the code: with fewer than [top_k + 1] stored vectors the row
    is padded with label [-1], which Python reads as the last id. *)
Theorem similar_includes_itself :
  build_index (init Demo.encoder) Demo.pair
    (create_embeddings (init Demo.encoder) Demo.pair) = Ok Demo.pair_index /\
  get_similar_chunks Demo.pair_index "id2" 5
    = Ok ["id1"; "id2"; "id2"; "id2"; "id2"].
Proof. split; vm_compute; reflexivity. Qed.

End SemanticSearchClaims.

Section ChunkerFacts.
Import CodeChunker.

Lemma count_from_nonneg (sub : string) (skip : nat) (s : string) :
  0 <= PyStr.count_from sub skip s.
Proof.
  revert skip; induction s as [|c s IH]; intros skip; simpl; [lia|].
  destruct skip as [|n]; [|apply IH].
  destruct (PyStr.startswith sub (String c s)).
  - specialize (IH (String.length sub - 1)%nat). lia.
  - apply IH.
Qed.

Lemma count_nonneg (s sub : string) : 0 <= PyStr.count s sub.
Proof. apply count_from_nonneg. Qed.

Lemma sum_counts_nonneg (s : string) (kws : list string) :
  0 <= sum (map (PyStr.count s) kws).
Proof.
  induction kws as [|k kws IH]; simpl; [lia|].
  pose proof (count_nonneg s k). lia.
Qed.

Lemma simple_complexity_floor (self : t) (code : string) :
  1 <= _calculate_simple_complexity self code.
Proof.
  unfold _calculate_simple_complexity.
  pose proof (sum_counts_nonneg code decision_keywords). lia.
Qed.

Lemma generic_floor (self : t) (fp : string) (line : Z) (blocks : list string) :
  List.Forall (fun c => 1 <= complexity c) (generic_blocks self fp line blocks).
Proof.
  revert line; induction blocks as [|b blocks IH]; intros line; simpl.
  - constructor.
  - destruct (PyStr.len (PyStr.strip b) <? 20); [apply IH|].
    constructor; [apply simple_complexity_floor | apply IH].
Qed.

Lemma javascript_floor (self : t) (fp content : string) :
  List.Forall (fun c => 1 <= complexity c) (_chunk_javascript self fp content).
Proof.
  unfold _chunk_javascript.
  repeat (apply Forall_app; split);
    apply List.Forall_forall; intros c Hc; apply in_map_iff in Hc;
    destruct Hc as [m [<- _]]; apply simple_complexity_floor.
Qed.

(** Every node reached by the walk of a well-formed queue is well formed. *)
Lemma wf_children (n : Ast.node) :
  Ast.wf n = true -> forallb Ast.wf (Ast.children n) = true.
Proof.
  destruct n as [k a b c]; simpl. intros H.
  apply andb_prop in H as [H Hc]. apply andb_prop in H as [H Hb].
  apply andb_prop in H as [_ Ha].
  rewrite !forallb_app, Ha, Hb, Hc. reflexivity.
Qed.

Lemma wf_body (n : Ast.node) :
  Ast.wf n = true -> forallb Ast.wf (Ast.body n) = true.
Proof.
  destruct n as [k a b c]; simpl. intros H.
  apply andb_prop in H as [H _]. apply andb_prop in H as [_ Hb]. exact Hb.
Qed.

Lemma walk_queue_wf (fuel : nat) (todo : list Ast.node) :
  forallb Ast.wf todo = true ->
  forallb Ast.wf (Ast.walk_queue fuel todo) = true.
Proof.
  revert todo; induction fuel as [|fuel IH]; intros [|n rest]; simpl;
    try reflexivity.
  intros H. apply andb_prop in H as [Hn Hrest]. rewrite Hn; simpl.
  apply IH. rewrite forallb_app, Hrest. simpl. apply wf_children, Hn.
Qed.

Lemma walk_wf (n : Ast.node) :
  Ast.wf n = true -> forallb Ast.wf (Ast.walk n) = true.
Proof.
  intros H. apply walk_queue_wf. simpl. now rewrite H.
Qed.

Lemma decision_weight_nonneg (n : Ast.node) :
  Ast.wf n = true -> 0 <= decision_weight n.
Proof.
  destruct n as [k a b c]. unfold decision_weight; simpl.
  destruct k; intros H; try lia;
    repeat (apply andb_prop in H as [H _]); lia.
Qed.

Lemma fold_weights_floor (l : list Ast.node) (acc : Z) :
  forallb Ast.wf l = true -> 1 <= acc ->
  1 <= fold_left (fun complexity child => complexity + decision_weight child) l acc.
Proof.
  revert acc; induction l as [|n l IH]; intros acc Hl Hacc; simpl; [exact Hacc|].
  simpl in Hl. apply andb_prop in Hl as [Hn Hl].
  apply IH; [exact Hl|]. pose proof (decision_weight_nonneg n Hn). lia.
Qed.

Lemma ast_complexity_floor (self : t) (n : Ast.node) :
  Ast.wf n = true -> 1 <= _calculate_ast_complexity self n.
Proof.
  intros H. unfold _calculate_ast_complexity.
  apply fold_weights_floor; [apply walk_wf, H | lia].
Qed.

Lemma visit_floor (self : t) (fp content : string) (n : Ast.node) :
  Ast.wf n = true ->
  List.Forall (fun c => 1 <= complexity c) (visit self fp content n).
Proof.
  intros Hn. unfold visit.
  destruct (Ast.kind_of n) eqn:Ek; try constructor.
  - unfold _extract_python_function. rewrite Ek. simpl.
    constructor; [apply ast_complexity_floor, Hn | constructor].
  - apply Forall_app; split.
    + unfold _extract_python_class. rewrite Ek. simpl.
      constructor; [apply ast_complexity_floor, Hn | constructor].
    + apply List.Forall_forall. intros c Hc. apply in_flat_map in Hc.
      destruct Hc as [item [Hitem Hc]].
      pose proof (wf_body n Hn) as Hb.
      rewrite forallb_forall in Hb. specialize (Hb item Hitem).
      unfold _extract_python_method, _extract_python_function in Hc.
      destruct (Ast.kind_of item); simpl in Hc; try contradiction.
      destruct Hc as [<-|[]]. simpl. apply ast_complexity_floor, Hb.
Qed.

Lemma python_floor (parse : string -> result Ast.node) (self : t)
    (fp content : string) (cs : list chunk) :
  (forall text tree, parse text = Ok tree -> Ast.wf tree = true) ->
  _chunk_python parse self fp content = Ok cs ->
  List.Forall (fun c => 1 <= complexity c) cs.
Proof.
  intros Hp. unfold _chunk_python.
  destruct (parse content) as [tree|e] eqn:E.
  - intros [= <-]. apply List.Forall_forall. intros c Hc.
    apply in_flat_map in Hc. destruct Hc as [n [Hn Hc]].
    pose proof (walk_wf tree (Hp _ _ E)) as Hw.
    rewrite forallb_forall in Hw.
    pose proof (visit_floor self fp content n (Hw n Hn)) as Hv.
    rewrite List.Forall_forall in Hv. apply Hv, Hc.
  - destruct e; try discriminate. intros [= <-]. apply generic_floor.
Qed.

Lemma chunk_file_floor (parse : string -> result Ast.node) (self : t)
    (fs : FS.t) (fp language : string) (cs : list chunk) :
  (forall text tree, parse text = Ok tree -> Ast.wf tree = true) ->
  chunk_file parse self fs fp language = Ok cs ->
  List.Forall (fun c => 1 <= complexity c) cs.
Proof.
  intros Hp. unfold chunk_file.
  destruct (negb _); [intros [= <-]; constructor|].
  destruct (FS.read_text _ _) as [content|e]; [|intros [= <-]; constructor].
  destruct (String.eqb language "python"); [apply python_floor, Hp|].
  destruct (_ || _); intros [= <-].
  - apply javascript_floor.
  - apply generic_floor.
Qed.

End ChunkerFacts.

Section ChunkIdFacts.
Import CodeChunker.

Lemma generic_keyed (self : t) (fp : string) (line : Z) (blocks : list string) :
  List.Forall (keyed self) (generic_blocks self fp line blocks).
Proof.
  revert line; induction blocks as [|b blocks IH]; intros line; simpl.
  - constructor.
  - destruct (PyStr.len (PyStr.strip b) <? 20); [apply IH|].
    constructor; [reflexivity | apply IH].
Qed.

Lemma javascript_keyed (self : t) (fp content : string) :
  List.Forall (keyed self) (_chunk_javascript self fp content).
Proof.
  unfold _chunk_javascript.
  repeat (apply Forall_app; split);
    apply List.Forall_forall; intros c Hc; apply in_map_iff in Hc;
    destruct Hc as [m [<- _]]; reflexivity.
Qed.

Lemma visit_keyed (self : t) (fp content : string) (n : Ast.node) :
  List.Forall (keyed self) (visit self fp content n).
Proof.
  unfold visit.
  destruct (Ast.kind_of n) eqn:Ek; try constructor.
  - unfold _extract_python_function. rewrite Ek. simpl.
    constructor; [reflexivity | constructor].
  - apply Forall_app; split.
    + unfold _extract_python_class. rewrite Ek. simpl.
      constructor; [reflexivity | constructor].
    + apply List.Forall_forall. intros c Hc. apply in_flat_map in Hc.
      destruct Hc as [item [_ Hc]].
      unfold _extract_python_method, _extract_python_function in Hc.
      destruct (Ast.kind_of item); simpl in Hc; try contradiction.
      destruct Hc as [<-|[]]. reflexivity.
Qed.

Lemma chunk_file_keyed (parse : string -> result Ast.node) (self : t)
    (fs : FS.t) (fp language : string) (cs : list chunk) :
  chunk_file parse self fs fp language = Ok cs ->
  List.Forall (keyed self) cs.
Proof.
  unfold chunk_file.
  destruct (negb _); [intros [= <-]; constructor|].
  destruct (FS.read_text _ _) as [content|e]; [|intros [= <-]; constructor].
  destruct (String.eqb language "python").
  - unfold _chunk_python. destruct (parse content) as [tree|e].
    + intros [= <-]. apply List.Forall_forall. intros c Hc.
      apply in_flat_map in Hc. destruct Hc as [n [_ Hc]].
      pose proof (visit_keyed self fp content n) as Hv.
      rewrite List.Forall_forall in Hv. apply Hv, Hc.
    + destruct e; try discriminate. intros [= <-]. apply generic_keyed.
  - destruct (_ || _); intros [= <-].
    + apply javascript_keyed.
    + apply generic_keyed.
Qed.

(** The walk visits as many nodes as the tree has: the queue never runs
    out of fuel before it is empty. *)
Lemma walk_queue_length (fuel : nat) (todo : list Ast.node) :
  fuel = list_sum (map Ast.size todo) ->
  List.length (Ast.walk_queue fuel todo) = fuel.
Proof.
  revert todo; induction fuel as [|fuel IH]; intros [|n rest]; simpl;
    try reflexivity.
  - discriminate.
  - intros H. f_equal. apply IH.
    rewrite map_app, list_sum_app.
    destruct n as [k a b c]; simpl in *.
    rewrite !map_app, !list_sum_app. lia.
Qed.

Lemma walk_length (n : Ast.node) : List.length (Ast.walk n) = Ast.size n.
Proof. apply walk_queue_length. simpl. lia. Qed.

End ChunkIdFacts.

Section ChunkerInstance.
Import CodeChunker.

(** No strategy reads the chunker instance: two instances produce the same
    chunks from the same file path and content. *)
Lemma generic_blocks_instance (self1 self2 : t) (fp : string) (line : Z)
    (blocks : list string) :
  generic_blocks self1 fp line blocks = generic_blocks self2 fp line blocks.
Proof.
  revert line; induction blocks as [|b blocks IH]; intros line; simpl;
    [reflexivity|].
  destruct (PyStr.len (PyStr.strip b) <? 20); [apply IH|].
  f_equal. apply IH.
Qed.

Lemma javascript_instance (self1 self2 : t) (fp content : string) :
  _chunk_javascript self1 fp content = _chunk_javascript self2 fp content.
Proof. reflexivity. Qed.

Lemma visit_instance (self1 self2 : t) (fp content : string) (n : Ast.node) :
  visit self1 fp content n = visit self2 fp content n.
Proof. reflexivity. Qed.

Lemma python_instance (parse : string -> result Ast.node) (self1 self2 : t)
    (fp content : string) :
  _chunk_python parse self1 fp content = _chunk_python parse self2 fp content.
Proof.
  unfold _chunk_python. destruct (parse content) as [tree|e].
  - reflexivity.
  - destruct e; try reflexivity.
    f_equal. apply generic_blocks_instance.
Qed.

End ChunkerInstance.

Section FileProcessorFacts.
Import FileProcessor.

Lemma calculate_complexity_nonneg (self : t) (content : string) :
  (0 <= _calculate_complexity self content)%Q.
Proof.
  unfold _calculate_complexity.
  apply Qmult_le_0_compat; [|discriminate].
  apply Qmult_le_0_compat.
  - change 0%Q with (inject_Z 0). rewrite <- Zle_Qle.
    apply sum_counts_nonneg.
  - apply Qinv_le_0_compat.
    change 0%Q with (inject_Z 0). rewrite <- Zle_Qle. lia.
Qed.

Lemma metadata_complexity_nonneg (self : t) (fs : FS.t) (path : string) :
  (0 <= complexity_score (extract_file_metadata self fs path))%Q.
Proof.
  unfold extract_file_metadata.
  destruct (negb _); [apply Qle_refl|].
  destruct (FS.read_text _ _); [|apply Qle_refl].
  apply calculate_complexity_nonneg.
Qed.
End FileProcessorFacts.

Section ChunkerClaims.
Import CodeChunker.

(** C4: the id of a chunk is a function of the triple (file path, unit
    name, start line) alone: any two chunker instances, whatever their
    project directories, give the same id to the same triple.  Hence two
    runs, each reading the same thing at the file's place under its own
    project directory, end the same way with the same chunks, and every
    id of the first run is the hash the second run gives to the triple of
    that chunk. *)
Theorem chunk_ids_deterministic (parse : string -> result Ast.node)
    (self1 self2 : t) (fs1 fs2 : FS.t) (fp language : string) :
  FS.exists_ fs1 (FS.joinpath (project_path self1) fp)
    = FS.exists_ fs2 (FS.joinpath (project_path self2) fp) ->
  FS.read_text fs1 (FS.joinpath (project_path self1) fp)
    = FS.read_text fs2 (FS.joinpath (project_path self2) fp) ->
  (forall (a b : t) (path unit : string) (line : Z),
     _generate_chunk_id a path unit line = _generate_chunk_id b path unit line) /\
  chunk_file parse self2 fs2 fp language
    = chunk_file parse self1 fs1 fp language /\
  (forall cs : list chunk,
     chunk_file parse self1 fs1 fp language = Ok cs ->
     List.Forall (fun c =>
       id c = _generate_chunk_id self2 (file_path c) (unit_name c)
                (start_line c)) cs).
Proof.
  intros He Hr.
  assert (Hid : forall (a b : t) (path unit : string) (line : Z),
            _generate_chunk_id a path unit line
            = _generate_chunk_id b path unit line) by reflexivity.
  split; [exact Hid|]. split.
  - unfold chunk_file. cbv zeta. rewrite <- He, <- Hr.
    destruct (negb _); [reflexivity|].
    destruct (FS.read_text _ _) as [content|e]; [|reflexivity].
    destruct (String.eqb language "python"); [apply python_instance|].
    destruct (_ || _); f_equal.
    apply generic_blocks_instance.
  - intros cs Hc.
    pose proof (chunk_file_keyed parse self1 fs1 fp language cs Hc) as Hk.
    eapply List.Forall_impl; [|exact Hk].
    intros c Hkc. unfold keyed in Hkc. rewrite Hkc. apply Hid.
Qed.

Lemma chunk_ids_deterministic_witness :
  (forall (a b : t) (path unit : string) (line : Z),
     _generate_chunk_id a path unit line = _generate_chunk_id b path unit line) /\
  chunk_file DemoProject.parser DemoProject.run2 DemoProject.fs_run2
    "app.js" "javascript"
    = chunk_file DemoProject.parser DemoProject.run1 DemoProject.fs_run1
        "app.js" "javascript" /\
  (forall cs : list chunk,
     chunk_file DemoProject.parser DemoProject.run1 DemoProject.fs_run1
       "app.js" "javascript" = Ok cs ->
     List.Forall (fun c =>
       id c = _generate_chunk_id DemoProject.run2 (file_path c) (unit_name c)
                (start_line c)) cs).
Proof.
  apply (chunk_ids_deterministic DemoProject.parser DemoProject.run1
           DemoProject.run2 DemoProject.fs_run1 DemoProject.fs_run2
           "app.js" "javascript").
  - vm_compute; reflexivity.
  - vm_compute; reflexivity.
Defined.

(** C5 as stated fails: after a syntax error the chunks are not those of the
    pattern-match strategy. *)
Lemma fallback_is_not_pattern_match :
  ~ (forall (parse : string -> result Ast.node) (self : t) (fp content : string),
       parse content = Raise SyntaxError ->
       _chunk_python parse self fp content
       = Ok (_chunk_javascript self fp content)).
Proof.
  intros H.
  specialize (H DemoProject.parser DemoProject.chunker "broken.py"
                DemoProject.broken_py eq_refl).
  vm_compute in H. discriminate.
Qed.

(** C5 (amended): when the parse fails with a syntax error, [_chunk_python]
    does not raise and returns the chunks of the generic block strategy. *)
Theorem fallback_is_generic (parse : string -> result Ast.node) (self : t)
    (fp content : string) :
  parse content = Raise SyntaxError ->
  _chunk_python parse self fp content = Ok (_chunk_generic self fp content).
Proof. intros H. unfold _chunk_python. now rewrite H. Qed.

Lemma fallback_is_generic_witness :
  _chunk_python DemoProject.parser DemoProject.chunker "broken.py"
    DemoProject.broken_py
  = Ok (_chunk_generic DemoProject.chunker "broken.py" DemoProject.broken_py).
Proof. apply fallback_is_generic. reflexivity. Defined.

(** C6 as stated fails for file records: a file without decision keywords
    has complexity score 0. *)
Lemma file_complexity_below_one :
  FileProcessor.complexity_score
    (FileProcessor.extract_file_metadata
       (FileProcessor.mkProcessor "/proj") DemoProject.fs "settings.py") = 0%Q /\
  ~ (1 <= FileProcessor.complexity_score
            (FileProcessor.extract_file_metadata
               (FileProcessor.mkProcessor "/proj") DemoProject.fs
               "settings.py"))%Q.
Proof.
  assert (E : FileProcessor.complexity_score
    (FileProcessor.extract_file_metadata
       (FileProcessor.mkProcessor "/proj") DemoProject.fs "settings.py") = 0%Q)
    by (vm_compute; reflexivity).
  rewrite E. split; [reflexivity | unfold Qle; simpl; lia].
Qed.

(** C6 (amended): every chunk of every strategy has complexity at least 1
    (the parser giving at least two operands to a boolean operation), and
    the complexity score of a file record is at least 0. *)
Theorem complexity_floor (parse : string -> result Ast.node) (self : t)
    (fs : FS.t) (fp language : string) (cs : list chunk)
    (processor : FileProcessor.t) (path : string) :
  (forall text tree, parse text = Ok tree -> Ast.wf tree = true) ->
  chunk_file parse self fs fp language = Ok cs ->
  List.Forall (fun c => 1 <= complexity c) cs /\
  (0 <= FileProcessor.complexity_score
          (FileProcessor.extract_file_metadata processor fs path))%Q.
Proof.
  intros Hp Hc. split.
  - eapply chunk_file_floor; eassumption.
  - apply metadata_complexity_nonneg.
Qed.

Lemma complexity_floor_witness :
  List.Forall (fun c => 1 <= complexity c)
    [mkChunk "8760d303722d68cb" "util.py" Function "f" "def f(x)" 1 7
       DemoProject.util_py "" None 4 19] /\
  (0 <= FileProcessor.complexity_score
          (FileProcessor.extract_file_metadata
             (FileProcessor.mkProcessor "/proj") DemoProject.fs "util.py"))%Q.
Proof.
  apply (complexity_floor DemoProject.parser DemoProject.chunker DemoProject.fs
           "util.py" "python").
  - intros text tree. unfold DemoProject.parser.
    destruct (String.eqb text DemoProject.util_py); [|discriminate].
    intros [= <-]. reflexivity.
  - vm_compute; reflexivity.
Defined.

(** C7 fails on the code.  The pattern-match strategy stores the index of
    the closing line counted from 0 next to a start line counted from 1: a
    one-line class ends before it starts.  The generic strategy adds one
    line too many after a kept block: the second block of a file of three
    lines is placed on line 4. *)
Theorem line_range_violated :
  chunk_file DemoProject.parser DemoProject.chunker DemoProject.fs
    "app.js" "javascript"
  = Ok [mkChunk "29d5066d58951d76" "app.js" Class "A" "class A" 1 0
          "class A {}" "" None 1 3] /\
  Py.len (PyStr.split_lines DemoProject.main_go) = 3 /\
  (chunks ← chunk_file DemoProject.parser DemoProject.chunker DemoProject.fs
              "main.go" "go";
   Ok (map (fun c => (start_line c, end_line c)) chunks))
  = Ok [(1, 1); (4, 4)].
Proof. repeat split; vm_compute; reflexivity. Qed.

End ChunkerClaims.

Section AnalyzerClaims.
Import RepositoryAnalyzer.

Lemma max_from_In (best : string * Q) (items : list (string * Q)) :
  In (max_from best items) (best :: items).
Proof.
  revert best; induction items as [|x items IH]; intros best; simpl.
  - now left.
  - destruct (IH (if Qle_bool (snd x) (snd best) then best else x)) as [H|H].
    + destruct (Qle_bool (snd x) (snd best)); rewrite <- H; auto.
    + auto.
Qed.

(** Every signature has a positive maximal score, so [scores] holds one
    entry per signature. *)
Lemma scores_names (self : t) (fs : FS.t) :
  map fst (scores self fs) = map fst PROJECT_PATTERNS.
Proof. reflexivity. Qed.

(** [max]: the winner is the first item with the greatest key. *)
Lemma max_from_first (best : string * Q) (items : list (string * Q)) :
  exists l1 l2, best :: items = l1 ++ max_from best items :: l2 /\
    List.Forall (fun e => (snd e < snd (max_from best items))%Q) l1 /\
    List.Forall (fun e => (snd e <= snd (max_from best items))%Q) l2.
Proof.
  revert best; induction items as [|x items IH]; intros best; simpl.
  - exists [], []. repeat split; constructor.
  - destruct (Qle_bool (snd x) (snd best)) eqn:E.
    + apply Qle_bool_iff in E.
      destruct (IH best) as (l1 & l2 & Heq & H1 & H2).
      remember (max_from best items) as w eqn:Hw. clear Hw IH.
      destruct l1 as [|b l1]; simpl in Heq; injection Heq as Hb Hit; subst.
      * exists [], (x :: l2). split; [reflexivity|].
        split; constructor; assumption.
      * inversion H1 as [|? ? Hlt H1']; subst.
        exists (b :: x :: l1), l2. split; [reflexivity|].
        split; [|exact H2].
        constructor; [exact Hlt|]. constructor; [|exact H1'].
        eapply Qle_lt_trans; eassumption.
    + assert (Hlt : (snd best < snd x)%Q).
      { apply Qnot_le_lt. intros Hle. apply Qle_bool_iff in Hle. congruence. }
      destruct (IH x) as (l1 & l2 & Heq & H1 & H2).
      remember (max_from x items) as w eqn:Hw. clear Hw IH.
      destruct l1 as [|b l1]; simpl in Heq; injection Heq as Hb Hit; subst.
      * exists [best], l2. split; [reflexivity|].
        split; [|exact H2]. constructor; [exact Hlt | constructor].
      * inversion H1 as [|? ? Hlt' H1']; subst.
        exists (best :: b :: l1), l2. split; [reflexivity|].
        split; [|exact H2].
        constructor; [|constructor; [exact Hlt' | exact H1']].
        eapply Qlt_trans; eassumption.
Qed.

(** The detected type is the first signature of the table with the greatest
    confidence. *)
Lemma detect_first_greatest (self : t) (fs : FS.t) :
  exists l1 l2,
    scores self fs = l1 ++ _detect_project_type self fs :: l2 /\
    List.Forall (fun e => (snd e < snd (_detect_project_type self fs))%Q) l1 /\
    List.Forall (fun e => (snd e <= snd (_detect_project_type self fs))%Q) l2.
Proof.
  unfold _detect_project_type.
  pose proof (scores_names self fs) as Hn.
  destruct (scores self fs) as [|first rest]; [discriminate|].
  apply max_from_first.
Qed.

(** C8 fails on the code: a repository in which no signature scores is
    reported as the first signature of the table with confidence 0, and no
    repository at all is reported as unknown. *)
Theorem detect_never_unknown :
  List.Forall (fun e : string * Q => (snd e == 0)%Q)
    (scores (mkAnalyzer "/proj" ["README.md"]) DemoProject.fs) /\
  fst (_detect_project_type (mkAnalyzer "/proj" ["README.md"]) DemoProject.fs)
    = "fastapi" /\
  (snd (_detect_project_type (mkAnalyzer "/proj" ["README.md"]) DemoProject.fs)
    == 0)%Q /\
  forall (self : t) (fs : FS.t),
    fst (_detect_project_type self fs) <> "unknown".
Proof.
  split; [|split; [|split]].
  - vm_compute. repeat constructor.
  - vm_compute; reflexivity.
  - vm_compute; reflexivity.
  - intros self fs. unfold _detect_project_type.
    pose proof (scores_names self fs) as Hn.
    destruct (scores self fs) as [|first rest]; [discriminate|].
    pose proof (max_from_In first rest) as Hin.
    apply (in_map fst) in Hin. rewrite Hn in Hin.
    simpl in Hin. intros E. rewrite E in Hin.
    repeat (destruct Hin as [Hin|Hin]; [discriminate|]). exact Hin.
Qed.

End AnalyzerClaims.

Section ProgressFacts.
Import ProgressTracker.

Lemma overall_of_bounded (stage : Stage.t) (pct : Q) :
  (0 <= pct)%Q -> (pct <= 100)%Q ->
  (0 <= overall_of stage pct)%Q /\ (overall_of stage pct <= 100)%Q.
Proof.
  intros H0 H1.
  destruct stage; unfold overall_of;
    change (CodeChunker.sum (map snd stage_weights)) with 100;
    simpl; unfold Qdiv, inject_Z; simpl;
    change (/ (100 # 1))%Q with (1 # 100)%Q; split; lra.
Qed.

Lemma ratio_bounded (current total : Z) :
  0 <= current <= total -> 0 < total ->
  (0 <= inject_Z current / inject_Z total * 100)%Q /\
  (inject_Z current / inject_Z total * 100 <= 100)%Q.
Proof.
  intros Hc Ht.
  assert (Hpos : (0 < inject_Z total)%Q)
    by (change 0%Q with (inject_Z 0); rewrite <- Zlt_Qlt; lia).
  assert (H0 : (0 <= inject_Z current / inject_Z total)%Q).
  { apply Qle_shift_div_l; [exact Hpos|]. rewrite Qmult_0_l.
    change 0%Q with (inject_Z 0). rewrite <- Zle_Qle. lia. }
  assert (H1 : (inject_Z current / inject_Z total <= 1)%Q).
  { apply Qle_shift_div_r; [exact Hpos|]. rewrite Qmult_1_l.
    rewrite <- Zle_Qle. lia. }
  split; lra.
Qed.

Lemma add_activity_progress (self : t) k message stage details file_name file_path :
  progress (add_activity self k message stage details file_name file_path)
  = progress self.
Proof. reflexivity. Qed.

(** The tracker keeps the percentages in range as long as the reported
    counts do not exceed the declared totals. *)
Lemma start_stage_in_range (self : t) (now : Z) (stage : Stage.t) (total : Z) :
  in_range (progress self) ->
  in_range (progress (start_stage self now stage total)).
Proof.
  intros [_ Ho]. unfold start_stage.
  destruct stage; simpl; (split; [split; [apply Qle_refl | discriminate] | exact Ho]).
Qed.

Lemma complete_stage_in_range (self : t) (stage : Stage.t) :
  in_range (progress (complete_stage self stage)).
Proof.
  unfold complete_stage, in_range; simpl. split.
  - split; [discriminate | apply Qle_refl].
  - apply overall_of_bounded; [discriminate | apply Qle_refl].
Qed.

Lemma complete_processing_in_range (self : t) (now : Z) :
  in_range (progress self) ->
  in_range (progress (complete_processing self now)).
Proof.
  intros [Hs _]. unfold complete_processing, in_range; simpl.
  split; [exact Hs | split; [discriminate | apply Qle_refl]].
Qed.

Lemma mark_failed_in_range (self : t) (now : Z) (error : string) :
  in_range (progress self) ->
  in_range (progress (mark_failed self now error)).
Proof. intros H. exact H. Qed.

Lemma update_file_progress_in_range (self : t) (file_name file_path : string)
    (current total : Z) :
  in_range (progress self) -> 0 <= current <= total ->
  in_range (progress (update_file_progress self file_name file_path current total)).
Proof.
  intros [Hs _] Hc. unfold update_file_progress.
  match goal with
  | |- in_range (progress (if ?b then _ else _)) => destruct b
  end; rewrite ?add_activity_progress; unfold in_range; simpl;
    (destruct (0 <? total) eqn:E;
     [ pose proof (ratio_bounded current total Hc ltac:(lia)) as Hr;
       split; [exact Hr | apply overall_of_bounded; apply Hr]
     | split; [exact Hs | apply overall_of_bounded; apply Hs] ]).
Qed.

Lemma update_chunk_progress_in_range (self : t) (file_name : string)
    (chunks_created : Z) :
  in_range (progress self) ->
  0 <= processed_chunks (progress self) + chunks_created
    <= total_chunks (progress self) ->
  in_range (progress (update_chunk_progress self file_name chunks_created)).
Proof.
  intros [Hs _] Hc. unfold update_chunk_progress.
  rewrite add_activity_progress. unfold in_range; simpl.
  destruct (0 <? total_chunks (progress self)) eqn:E.
  - pose proof (ratio_bounded _ _ Hc ltac:(lia)) as Hr.
    split; [exact Hr | apply overall_of_bounded; apply Hr].
  - split; [exact Hs | apply overall_of_bounded; apply Hs].
Qed.
End ProgressFacts.

Section ProgressClaims.
Import ProgressTracker PreprocessingOrchestrator.

(** C9 fails on the code: the chunking stage declares the number of files
    as its total and then counts chunks.  One file with three chunks drives
    the stage percentage to 300 and the overall percentage to 125. *)
Theorem progress_exceeds_100 :
  exists (tracker : ProgressTracker.t) (chunks : list CodeChunker.chunk),
    start_code_chunking DemoProject.parser DemoProject.chunker DemoProject.fs
      0 ProgressTracker.create
      [mkFile "models.js" "models.js" (Some "javascript") 5 false]
    = Ok (tracker, chunks) /\
    total_chunks (progress tracker) = 1 /\
    processed_chunks (progress tracker) = 3 /\
    (current_stage_percentage (progress tracker) == 300)%Q /\
    (overall_percentage (progress tracker) == 125)%Q /\
    ~ (overall_percentage (progress tracker) <= 100)%Q.
Proof.
  eexists; eexists. split; [vm_compute; reflexivity|].
  repeat split; try (vm_compute; reflexivity).
  vm_compute. intros H; apply H; reflexivity.
Qed.

End ProgressClaims.
